(** * AI Call Transcript Analyzer: a shallow embedding of the request pipeline

    The development follows the Python sources:
    - [src/backend/data_manager.py]  (module [DataManager]),
    - [src/backend/orchestrator.py]  (module [Orchestrator]),
    - [src/api/routes.py]            (module [Routes]).

    Python dictionaries are finite maps ([gmap string str]); Python strings are
    sequences of Unicode code points; code that can raise lives in a small
    state-and-exception monad over the file system and an event trace.  The
    collaborators the sources only call (the Groq chat model, the LangGraph
    runtime, the operating system's file I/O) are described by an environment
    record [Env] that fixes, for one request, what each of them answers. *)

From Stdlib Require Import NArith ZArith Lia.
From stdpp Require Import base strings list gmap.

Local Open Scope N_scope.

(** ** Python strings *)

(** A [str] is a sequence of code points. *)
Abbreviation str := (list N).

Module Py.

Definition of_string (s : string) : str :=
  map Ascii.N_of_ascii (String.list_ascii_of_string s).

(** [len(s)] counts code points. *)
Definition len (s : str) : nat := length s.

(** [str.isspace] on one code point (CPython's [_PyUnicode_IsWhitespace]). *)
Definition isspace (c : N) : bool :=
  ((9 <=? c) && (c <=? 13)) || ((28 <=? c) && (c <=? 32))
  || (c =? 133) || (c =? 160) || (c =? 5760)
  || ((8192 <=? c) && (c <=? 8202))
  || (c =? 8232) || (c =? 8233) || (c =? 8239) || (c =? 8287) || (c =? 12288).

Fixpoint lstrip (s : str) : str :=
  match s with
  | [] => []
  | c :: s' => if isspace c then lstrip s' else s
  end.

Definition rstrip (s : str) : str := rev (lstrip (rev s)).

(** [s.strip()] with no argument: whitespace removed at both ends. *)
Definition strip (s : str) : str := rstrip (lstrip s).

(** Truthiness of a string: [not s] holds exactly for the empty string. *)
Definition truthy (s : str) : bool :=
  match s with [] => false | _ => true end.

(** Exceptions.  Only subclasses of [Exception] occur;
    [HTTPException] is FastAPI's. *)
Inductive exn : Type :=
| HTTPException (status_code : Z) (detail : str)
| KeyError (key : string)
| Exception (msg : str).

(** [str(e)] *)
Definition exn_str (e : exn) : str :=
  match e with
  | HTTPException c d => d
  | KeyError k => of_string "'" ++ of_string k ++ of_string "'"
  | Exception m => m
  end.

Definition is_http (e : exn) : bool :=
  match e with HTTPException _ _ => true | _ => false end.

End Py.

Abbreviation py := Py.of_string.
Abbreviation exn := Py.exn.

(** A Python [dict] with string keys and string values. *)
Abbreviation dict := (gmap string str).

(** ** The outside world *)

Inductive level : Type := INFO | ERROR.

(** What an observer of one request sees: log lines ([src.utils.logger]) and
    the runs recorded by the [@traceable] decorator. *)
Inductive event : Type :=
| Log (lv : level) (msg : str)
| RunStart (name : string)
| RunEnd (name : string)
| RunFailed (name : string).

Record World : Type := mkWorld {
  files : gmap string (list N);   (* path |-> contents of the regular file *)
  trace : list event              (* oldest event first *)
}.

(** The two structured-output schemas of [orchestrator.py]. *)
Inductive schema : Type := TranscriptSummary | SentimentAnalysis.

(** The outcome of [chain.invoke(...)] followed by reading the schema's only
    field: the field's value, or some exception. *)
Inductive outcome : Type :=
| Reply (value : str)
| Failure (msg : str).

(** Places at which the LangGraph runtime itself may raise. *)
Inductive rt_point : Type :=
| AtCompile
| AtSuperstep (n : nat)
| AtFinish.

(** The file operations of [save_to_csv] that may raise [OSError]. *)
Inductive io_op : Type := IoOpen | IoWriteHeader | IoWriteRow | IoClose.

Record Env : Type := mkEnv {
  groq_init : option str;                 (* ChatGroq(...) fails with this message *)
  groq_invoke : schema -> str -> outcome; (* the model's answer on a transcript *)
  langgraph_fault : rt_point -> option str;
  io_fault : io_op -> option str
}.

(** ** The monad of effectful Python code *)

Inductive res (A : Type) : Type :=
| Ok (a : A)
| Raise (e : exn).
Arguments Ok {A} a.
Arguments Raise {A} e.

Definition M (A : Type) : Type := World -> res A * World.

Definition ret {A} (a : A) : M A := fun w => (Ok a, w).

Definition raise {A} (e : exn) : M A := fun w => (Raise e, w).

Definition bind {A B} (m : M A) (k : A -> M B) : M B :=
  fun w => match m w with
           | (Ok a, w') => k a w'
           | (Raise e, w') => (Raise e, w')
           end.

Declare Scope py_scope.
Delimit Scope py_scope with py.
Notation "'do' x <- m ; k" := (bind m (fun x => k))
  (at level 10, x name, m at level 100, k at level 200) : py_scope.
Notation "'do_' m ; k" := (bind m (fun _ => k))
  (at level 10, m at level 100, k at level 200) : py_scope.
Local Open Scope py_scope.

(** [try: m except Exception as e: h e] *)
Definition try_except {A} (m : M A) (h : exn -> M A) : M A :=
  fun w => match m w with
           | (Ok a, w') => (Ok a, w')
           | (Raise e, w') => h e w'
           end.

Definition emit (ev : event) : M unit :=
  fun w => (Ok tt, mkWorld (files w) (trace w ++ [ev])).

(** [logger.info(msg)] and [logger.error(msg)] *)
Definition logger_info (msg : str) : M unit := emit (Log INFO msg).
Definition logger_error (msg : str) : M unit := emit (Log ERROR msg).

(** [@traceable(name=...)]: the run is recorded when it starts and when it
    ends; an exception is recorded and passed on. *)
Definition traceable {A} (name : string) (m : M A) : M A :=
  do_ emit (RunStart name);
  fun w => match m w with
           | (Ok a, w') => (do_ emit (RunEnd name); ret a) w'
           | (Raise e, w') => (do_ emit (RunFailed name); raise e) w'
           end.

(** [d[key]], which raises [KeyError] on a missing key. *)
Definition getitem (d : dict) (key : string) : M str :=
  match d !! key with
  | Some v => ret v
  | None => raise (Py.KeyError key)
  end.

(** [d.get(key, default)] *)
Definition dict_get (d : dict) (key : string) (default : str) : str :=
  match d !! key with
  | Some v => v
  | None => default
  end.

(** ** [src/backend/data_manager.py] *)
Module DataManager.

(** *** Python's [csv] module, [excel] dialect *)

Definition delimiter : N := 44.      (* , *)
Definition quotechar : N := 34.      (* double quote *)
Definition lineterminator : str := [13; 10].

(** [QUOTE_MINIMAL]: these characters force the field into quotes. *)
Definition special (c : N) : bool :=
  (c =? delimiter) || (c =? quotechar) || (c =? 13) || (c =? 10).

(** [doublequote=True]: a quote inside a field is written twice. *)
Fixpoint escape (field : str) : str :=
  match field with
  | [] => []
  | c :: rest =>
      if c =? quotechar then quotechar :: quotechar :: escape rest
      else c :: escape rest
  end.

Definition csv_field (field : str) : str :=
  if existsb special field
  then quotechar :: escape field ++ [quotechar]
  else field.

Fixpoint join_fields (fields : list str) : str :=
  match fields with
  | [] => []
  | [f] => csv_field f
  | f :: rest => csv_field f ++ delimiter :: join_fields rest
  end.

(** The text [csv.writer.writerow] hands to the file.  A row made of one
    empty field is written as a pair of quotes. *)
Definition csv_record (fields : list str) : str :=
  match fields with
  | [ [] ] => [quotechar; quotechar] ++ lineterminator
  | _ => join_fields fields ++ lineterminator
  end.

(** *** The class *)

Record t : Type := mk {
  csv_filename : string;
  fieldnames : list string
}.

(** [DataManager.__init__] *)
Definition init (csv_filename : string) : t :=
  mk csv_filename ["Transcript"; "Summary"; "Sentiment"]%string.

(** [DataManager()] with the default file name *)
Definition default : t := init "call_analysis.csv".

Section WithEnv.
Variable env : Env.

Definition io_raise (op : io_op) : M unit :=
  match io_fault env op with
  | Some msg => raise (Py.Exception msg)
  | None => ret tt
  end.

(** [os.path.isfile(path)] *)
Definition isfile (path : string) : M bool :=
  fun w => (Ok (bool_decide (is_Some (files w !! path))), w).

(** [open(path, 'a', newline='', encoding='utf-8')]: the file is created
    when it is missing and is otherwise left as it is. *)
Definition open_append (path : string) : M unit :=
  do_ io_raise IoOpen;
  fun w => (Ok tt,
            match files w !! path with
            | Some _ => w
            | None => mkWorld (<[path := []]> (files w)) (trace w)
            end).

(** Text written to a file opened for appending goes to its end. *)
Definition fwrite (op : io_op) (path : string) (data : str) : M unit :=
  do_ io_raise op;
  fun w => (Ok tt,
            mkWorld (<[path := dict_get (files w) path [] ++ data]> (files w))
                    (trace w)).

Definition fclose : M unit := io_raise IoClose.

(** [with open(...) as csvfile: body]: the file is closed on the way out,
    whether [body] returned or raised. *)
Definition with_open {A} (path : string) (body : M A) : M A :=
  do_ open_append path;
  fun w => match body w with
           | (Ok a, w') => (do_ fclose; ret a) w'
           | (Raise e, w') => (do_ fclose; raise e) w'
           end.

(** [csv.DictWriter._dict_to_list]: a key outside [fieldnames] raises
    [ValueError]; a missing field is written as the empty string. *)
Definition dict_to_list (names : list string) (rowdict : dict) : M (list str) :=
  if bool_decide (map_Forall (fun k _ => k ∈ names) rowdict)
  then ret (map (fun k => dict_get rowdict k []) names)
  else raise (Py.Exception (py "dict contains fields not in fieldnames")).

(** [writer.writerow(rowdict)] *)
Definition writerow (op : io_op) (self : t) (rowdict : dict) : M unit :=
  do fields <- dict_to_list (fieldnames self) rowdict;
  fwrite op (csv_filename self) (csv_record fields).

(** [writer.writeheader()]: the row that maps every field name to itself. *)
Definition writeheader (self : t) : M unit :=
  writerow IoWriteHeader self
           (list_to_map (map (fun k => (k, py k)) (fieldnames self))).

(** [DataManager.save_to_csv] *)
Definition save_to_csv (self : t) (data : dict) : M bool :=
  try_except
    (let csv_data : dict :=
       <["Transcript" := dict_get data "transcript" []]>
         (<["Summary" := dict_get data "summary" []]>
            (<["Sentiment" := dict_get data "sentiment" []]> ∅)) in
     do file_exists <- isfile (csv_filename self);
     do_ with_open (csv_filename self)
           (do_ (if negb file_exists
                 then do_ writeheader self;
                      logger_info (py "Created new CSV file: "
                                      ++ py (csv_filename self))
                 else ret tt);
            do_ writerow IoWriteRow self csv_data;
            logger_info (py "Data saved to " ++ py (csv_filename self)));
     ret true)
    (fun e =>
       do_ logger_error (py "Error saving to CSV: " ++ Py.exn_str e);
       ret false).

End WithEnv.

End DataManager.

(** ** The LangGraph runtime, as far as [orchestrator.py] uses it *)
Module LangGraph.

Definition START : string := "__start__".
Definition END : string := "__end__".

(** A node maps the current state to a partial update of it. *)
Definition node : Type := dict -> M dict.

Record StateGraph : Type := mk {
  nodes : list (string * node);
  edges : list (string * string)
}.

Definition new : StateGraph := mk [] [].

Definition add_node (name : string) (action : node) (g : StateGraph) : StateGraph :=
  mk (nodes g ++ [(name, action)]) (edges g).

Definition add_edge (start_key end_key : string) (g : StateGraph) : StateGraph :=
  mk (nodes g) (edges g ++ [(start_key, end_key)]).

Fixpoint lookup_node (ns : list (string * node)) (name : string) : option node :=
  match ns with
  | [] => None
  | (n, action) :: rest =>
      if String.eqb n name then Some action else lookup_node rest name
  end.

Definition known (g : StateGraph) (name : string) : bool :=
  match lookup_node (nodes g) name with Some _ => true | None => false end.

(** Every edge leaves [START] or a node and enters [END] or a node, and
    the graph has an entry point. *)
Definition valid (g : StateGraph) : bool :=
  forallb (fun e => (String.eqb (fst e) START || known g (fst e))
                    && (String.eqb (snd e) END || known g (snd e)))
          (edges g)
  && existsb (fun e => String.eqb (fst e) START) (edges g).

Definition successors (g : StateGraph) (name : string) : list string :=
  map snd (List.filter (fun e => String.eqb (fst e) name) (edges g)).

(** The nodes among [names]; [END] is none. *)
Definition live (names : list string) : list string :=
  List.filter (fun n => negb (String.eqb n END)) names.

(** A node's update overwrites the keys it mentions and leaves the others. *)
Definition apply_updates (state : dict) (updates : list dict) : dict :=
  foldl (fun st u => u ∪ st) state updates.

Definition recursion_limit : nat := 25.

Section WithEnv.
Variable env : Env.

Definition rt_raise (p : rt_point) : M unit :=
  match langgraph_fault env p with
  | Some msg => raise (Py.Exception msg)
  | None => ret tt
  end.

(** [graph.compile()] *)
Definition compile (g : StateGraph) : M StateGraph :=
  do_ rt_raise AtCompile;
  if valid g then ret g
  else raise (Py.Exception (py "invalid graph")).

(** The nodes of one superstep all see the state the step started with. *)
Fixpoint run_nodes (g : StateGraph) (active : list string) (snapshot : dict)
  : M (list dict) :=
  match active with
  | [] => ret []
  | name :: rest =>
      match lookup_node (nodes g) name with
      | None => run_nodes g rest snapshot
      | Some action =>
          do update <- action snapshot;
          do updates <- run_nodes g rest snapshot;
          ret (update :: updates)
      end
  end.

Fixpoint supersteps (fuel step : nat) (g : StateGraph)
         (active : list string) (state : dict) : M dict :=
  match live active with
  | [] => do_ rt_raise AtFinish; ret state
  | todo =>
      match fuel with
      | O => raise (Py.Exception (py "Recursion limit of 25 reached"))
      | S fuel' =>
          do_ rt_raise (AtSuperstep step);
          do updates <- run_nodes g todo state;
          supersteps fuel' (S step) g
                     (flat_map (successors g) todo)
                     (apply_updates state updates)
      end
  end.

(** [workflow.invoke(initial_state)] *)
Definition invoke (g : StateGraph) (input : dict) : M dict :=
  supersteps recursion_limit 0 g (successors g START) input.

End WithEnv.

End LangGraph.

(** ** [src/backend/orchestrator.py] *)
Module Orchestrator.

(** [class CallTranscriptAnalyzer]: the two structured-output models. *)
Record t : Type := mk {
  summary_llm : str -> outcome;
  sentiment_llm : str -> outcome
}.

Section WithEnv.
Variable env : Env.

(** [CallTranscriptAnalyzer.__init__] *)
Definition init : M t :=
  match groq_init env with
  | Some msg => raise (Py.Exception msg)
  | None =>
      do_ logger_info (py "CallTranscriptAnalyzer initialized successfully");
      ret (mk (groq_invoke env TranscriptSummary)
              (groq_invoke env SentimentAnalysis))
  end.

(** [result = chain.invoke({"transcript": transcript})] and the read of
    the result's field. *)
Definition chain_invoke (llm : str -> outcome) (transcript : str) : M str :=
  match llm transcript with
  | Reply value => ret value
  | Failure msg => raise (Py.Exception msg)
  end.

Definition summary_node (self : t) (state : dict) : M dict :=
  traceable "node_summarize_transcript"
    (try_except
       (do transcript <- getitem state "transcript";
        do result <- chain_invoke (summary_llm self) transcript;
        do_ logger_info (py "Summary generated successfully");
        ret {[ "summary"%string := result ]})
       (fun e =>
          do_ logger_error (py "Error in summary_node: " ++ Py.exn_str e);
          ret {[ "summary"%string := py "Error generating summary" ]})).

Definition sentiment_node (self : t) (state : dict) : M dict :=
  traceable "node_analyze_sentiment"
    (try_except
       (do transcript <- getitem state "transcript";
        do result <- chain_invoke (sentiment_llm self) transcript;
        do_ logger_info (py "Sentiment analyzed: " ++ result);
        ret {[ "sentiment"%string := result ]})
       (fun e =>
          do_ logger_error (py "Error in sentiment_node: " ++ Py.exn_str e);
          ret {[ "sentiment"%string := py "Neutral" ]})).

Definition save_node (self : t) (state : dict) : M dict :=
  traceable "node_save_results"
    (try_except
       (let data_manager := DataManager.default in
        do transcript <- getitem state "transcript";
        do summary <- getitem state "summary";
        do sentiment <- getitem state "sentiment";
        do success <- DataManager.save_to_csv env data_manager
                        (<["transcript" := transcript]>
                           (<["summary" := summary]>
                              (<["sentiment" := sentiment]> ∅)));
        do_ (if success : bool
             then logger_info (py "Results saved to CSV successfully")
             else logger_error (py "Failed to save results to CSV"));
        ret ∅)
       (fun e =>
          do_ logger_error (py "Error in save_node: " ++ Py.exn_str e);
          ret ∅)).

(** The graph [analyze_transcript] builds on every call. *)
Definition workflow_graph (self : t) : LangGraph.StateGraph :=
  LangGraph.add_edge "save_results" LangGraph.END
    (LangGraph.add_edge "analyze_sentiment" "save_results"
       (LangGraph.add_edge "summarize" "analyze_sentiment"
          (LangGraph.add_edge LangGraph.START "summarize"
             (LangGraph.add_node "save_results" (save_node self)
                (LangGraph.add_node "analyze_sentiment" (sentiment_node self)
                   (LangGraph.add_node "summarize" (summary_node self)
                      LangGraph.new)))))).

(** The body of the [try] in [analyze_transcript]. *)
Definition run_workflow (self : t) (transcript : str) : M dict :=
  do workflow <- LangGraph.compile env (workflow_graph self);
  let initial_state : dict :=
    <["transcript" := transcript]>
      (<["summary" := []]> (<["sentiment" := []]> ∅)) in
  do_ logger_info (py "Starting transcript analysis workflow");
  do final_state <- LangGraph.invoke env workflow initial_state;
  do_ logger_info (py "Workflow completed successfully");
  do t <- getitem final_state "transcript";
  do s <- getitem final_state "summary";
  do m <- getitem final_state "sentiment";
  ret (<["transcript" := t]> (<["summary" := s]> (<["sentiment" := m]> ∅))).

(** The record the handler of [analyze_transcript] returns. *)
Definition degraded (transcript : str) : dict :=
  <["transcript" := transcript]>
    (<["summary" := py "Error processing transcript"]>
       (<["sentiment" := py "Neutral"]> ∅)).

(** [CallTranscriptAnalyzer.analyze_transcript] *)
Definition analyze_transcript (self : t) (transcript : str) : M dict :=
  traceable "call_transcript_workflow"
    (try_except
       (run_workflow self transcript)
       (fun e =>
          do_ logger_error (py "Workflow execution failed: " ++ Py.exn_str e);
          ret (degraded transcript))).

End WithEnv.

End Orchestrator.

(** ** [src/api/models.py] and [src/api/routes.py] *)
Module Routes.

Record TranscriptRequest : Type := mkRequest {
  req_transcript : str
}.

Record TranscriptResponse : Type := mkResponse {
  transcript : str;
  summary : str;
  sentiment : str;
  success : bool
}.

Section WithEnv.
Variable env : Env.

(** The body of the [try] in the endpoint. *)
Definition handle (request : TranscriptRequest) : M TranscriptResponse :=
  do_ logger_info (py "Transcript analysis requested");
  do_ (if negb (Py.truthy (Py.strip (req_transcript request)))
       then raise (Py.HTTPException 400 (py "Transcript cannot be empty"))
       else ret tt);
  do_ (if (Py.len (Py.strip (req_transcript request)) <? 10)%nat
       then raise (Py.HTTPException 400
                     (py "Transcript too short for meaningful analysis"))
       else ret tt);
  do analyzer <- Orchestrator.init env;
  do result <- Orchestrator.analyze_transcript env analyzer
                 (req_transcript request);
  do_ (if bool_decide (result !! "status"%string = Some (py "failed"))
       then raise (Py.HTTPException 500 (py "Analysis failed"))
       else ret tt);
  do_ logger_info (py "Transcript analysis and CSV save completed successfully");
  do t <- getitem result "transcript";
  do s <- getitem result "summary";
  do m <- getitem result "sentiment";
  ret (mkResponse t s m true).

(** [POST /analyze-transcript]: an [HTTPException] goes out as it is,
    any other exception becomes a 500. *)
Definition analyze_transcript (request : TranscriptRequest) : M TranscriptResponse :=
  traceable "api_analyze_transcript"
    (try_except
       (handle request)
       (fun e =>
          if Py.is_http e then raise e
          else
            do_ logger_error (py "Unexpected error in analyze_transcript: "
                                 ++ Py.exn_str e);
            raise (Py.HTTPException 500
                     (py "Internal server error: " ++ Py.exn_str e)))).

End WithEnv.

End Routes.

(** ** Vocabulary of the specification *)

(** What the Summarize step leaves in the record: the model's answer, or the
    fixed fallback when the inference call raised. *)
Definition summary_of (self : Orchestrator.t) (transcript : str) : str :=
  match Orchestrator.summary_llm self transcript with
  | Reply value => value
  | Failure _ => py "Error generating summary"
  end.

Definition sentiment_of (self : Orchestrator.t) (transcript : str) : str :=
  match Orchestrator.sentiment_llm self transcript with
  | Reply value => value
  | Failure _ => py "Neutral"
  end.

(** A record of the three fields, as the orchestrator returns it. *)
Definition record (transcript summary sentiment : str) : dict :=
  <["transcript" := transcript]>
    (<["summary" := summary]> (<["sentiment" := sentiment]> ∅)).

(** The analyzer that [Orchestrator.init] builds in a given environment. *)
Definition analyzer_of (env : Env) : Orchestrator.t :=
  Orchestrator.mk (groq_invoke env TranscriptSummary)
                  (groq_invoke env SentimentAnalysis).

(** The request boundary's validation: trimmed length at least 10. *)
Definition passes_validation (transcript : str) : Prop :=
  (10 <= Py.len (Py.strip transcript))%nat.

(** The runs recorded in a trace, log lines left out. *)
Definition is_run (ev : event) : bool :=
  match ev with Log _ _ => false | _ => true end.

Definition runs (tr : list event) : list event := List.filter is_run tr.

(** The three steps in the order of the state machine
    START -> Summarize -> AnalyzeSentiment -> Persist -> END. *)
Definition three_steps : list event :=
  [ RunStart "node_summarize_transcript"; RunEnd "node_summarize_transcript";
    RunStart "node_analyze_sentiment"; RunEnd "node_analyze_sentiment";
    RunStart "node_save_results"; RunEnd "node_save_results" ].

(** The points at which a run of the three-node workflow consults the
    LangGraph runtime. *)
Definition rt_points : list rt_point :=
  [AtCompile; AtSuperstep 0; AtSuperstep 1; AtSuperstep 2; AtFinish].

(** The runtime raises nothing during the run. *)
Definition rt_clean (env : Env) : bool :=
  forallb (fun p => bool_decide (langgraph_fault env p = None)) rt_points.

(** The file operations one call of [save_to_csv] goes through, given
    whether the log file already exists. *)
Definition io_plan (file_exists : bool) : list io_op :=
  if file_exists then [IoOpen; IoWriteRow; IoClose]
  else [IoOpen; IoWriteHeader; IoWriteRow; IoClose].

(** Some file operation of the call fails. *)
Definition io_fails (env : Env) (file_exists : bool) : bool :=
  existsb (fun op => bool_decide (io_fault env op <> None)) (io_plan file_exists).

(** The header row and the data row of a record, before CSV quoting. *)
Definition header_row : list str := [py "Transcript"; py "Summary"; py "Sentiment"].

Definition data_row (data : dict) : list str :=
  [dict_get data "transcript" []; dict_get data "summary" [];
   dict_get data "sentiment" []].

(** Saving records one after the other, each under its own I/O conditions;
    the results of the calls are collected in order. *)
Fixpoint save_all (self : DataManager.t) (jobs : list (Env * dict)) (w : World)
  : list (res bool) * World :=
  match jobs with
  | [] => ([], w)
  | (env, data) :: rest =>
      let (r, w1) := DataManager.save_to_csv env self data w in
      let (rs, w2) := save_all self rest w1 in
      (r :: rs, w2)
  end.

(** *** Environments and inputs used in the examples *)

Definition no_fault {A} : A -> option str := fun _ => None.

(** The model answers; nothing fails. *)
Definition fair_weather : Env :=
  mkEnv None
        (fun sc _ => match sc with
                     | TranscriptSummary => Reply (py "Customer reports an outage.")
                     | SentimentAnalysis => Reply (py "Frustrated")
                     end)
        no_fault no_fault.

(** The inference endpoint is unreachable for both calls. *)
Definition groq_down : Env :=
  mkEnv None (fun _ _ => Failure (py "Connection error.")) no_fault no_fault.

(** Only the sentiment call fails. *)
Definition sentiment_down : Env :=
  mkEnv None
        (fun sc _ => match sc with
                     | TranscriptSummary => Reply (py "Customer reports an outage.")
                     | SentimentAnalysis => Failure (py "Connection error.")
                     end)
        no_fault no_fault.

(** Only the summary call fails. *)
Definition summary_down : Env :=
  mkEnv None
        (fun sc _ => match sc with
                     | TranscriptSummary => Failure (py "Connection error.")
                     | SentimentAnalysis => Reply (py "Frustrated")
                     end)
        no_fault no_fault.

(** The model's structured answer carries an empty summary. *)
Definition empty_summary : Env :=
  mkEnv None
        (fun sc _ => match sc with
                     | TranscriptSummary => Reply []
                     | SentimentAnalysis => Reply (py "Frustrated")
                     end)
        no_fault no_fault.

(** The graph runtime raises while compiling the workflow. *)
Definition compile_fails : Env :=
  mkEnv None (groq_invoke fair_weather)
        (fun p => match p with
                  | AtCompile => Some (py "graph runtime error")
                  | _ => None
                  end)
        no_fault.

(** The log file cannot be opened. *)
Definition read_only_disk : Env :=
  mkEnv None (groq_invoke fair_weather) no_fault
        (fun op => match op with
                   | IoOpen => Some (py "[Errno 13] Permission denied")
                   | _ => None
                   end).

(** No API key: the chat model cannot be constructed. *)
Definition no_api_key : Env :=
  mkEnv (Some (py "The api_key client option must be set"))
        (groq_invoke fair_weather) no_fault no_fault.

Definition empty_world : World := mkWorld ∅ [].

Definition outage_call : str :=
  py "  My internet has been down for two days, and no one has called me back. ".

Definition too_short : str := py "   hello   ".

(** Two analyses to be saved, neither save failing. *)
Definition two_jobs : list (Env * dict) :=
  [ (fair_weather, record outage_call (py "Outage, two days.") (py "Frustrated"));
    (fair_weather, record (py "Thanks, all good now.") (py "Resolved.") (py "Happy")) ].

(** The text of the data rows of a sequence of saves. *)
Definition rows_text (jobs : list (Env * dict)) : str :=
  concat (map (fun job => DataManager.csv_record (data_row (snd job))) jobs).

(** *** Intermediate states and log lines of a run *)

(** The log line the Summarize step writes. *)
Definition summary_log (self : Orchestrator.t) (t : str) : event :=
  match Orchestrator.summary_llm self t with
  | Reply _ => Log INFO (py "Summary generated successfully")
  | Failure msg => Log ERROR (py "Error in summary_node: " ++ msg)
  end.

Definition sentiment_log (self : Orchestrator.t) (t : str) : event :=
  match Orchestrator.sentiment_llm self t with
  | Reply value => Log INFO (py "Sentiment analyzed: " ++ value)
  | Failure msg => Log ERROR (py "Error in sentiment_node: " ++ msg)
  end.

(** The path of the log file, [call_analysis.csv]. *)
Definition csv_path : string := DataManager.csv_filename DataManager.default.

(** The workflow state before the first step and after each of the first two. *)
Definition initial_state (t : str) : dict :=
  <["transcript" := t]> (<["summary" := []]> (<["sentiment" := []]> ∅)).

Definition state1 (self : Orchestrator.t) (t : str) : dict :=
  {[ "summary"%string := summary_of self t ]} ∪ initial_state t.

Definition state2 (self : Orchestrator.t) (t : str) : dict :=
  {[ "sentiment"%string := sentiment_of self t ]} ∪ state1 self t.

(** The text a save continues: the contents of the log file or, when the
    file is missing, the header row it starts the file with. *)
Definition log_before (old : option str) : str :=
  match old with
  | Some contents => contents
  | None => DataManager.csv_record header_row
  end.

(** What [save_to_csv] leaves in the log file when it succeeds. *)
Definition appended (old : option str) (row : list str) : str :=
  log_before old ++ DataManager.csv_record row.

(** The events the endpoint records for a rejected request. *)
Definition rejected_events : list event :=
  [ RunStart "api_analyze_transcript";
    Log INFO (py "Transcript analysis requested");
    RunFailed "api_analyze_transcript" ].

(** *** Reading the log back *)

(** The states of a CSV reader for the [excel] dialect. *)
Inductive rstate : Type :=
| AtRecordStart | StartField | InField | InQuoted | QuoteInQuoted.

Definition is_newline (c : N) : bool := (c =? 13) || (c =? 10).

Definition is_quote (c : N) : bool := c =? DataManager.quotechar.

Definition is_delimiter (c : N) : bool := c =? DataManager.delimiter.

(** The rows a reader sees in a text: fields are separated by the delimiter,
    rows by line ends; inside quotes everything is data and a doubled quote
    is one quote.  [field] and [row] hold what has been read of the current
    field and row. *)
Fixpoint read (st : rstate) (field : str) (row : list str) (input : str)
  : list (list str) :=
  match input with
  | [] => match st with
          | AtRecordStart => []
          | _ => [row ++ [field]]
          end
  | c :: rest =>
      match st with
      | AtRecordStart =>
          if is_newline c then read AtRecordStart [] [] rest
          else if is_quote c then read InQuoted [] [] rest
          else if is_delimiter c then read StartField [] [[]] rest
          else read InField [c] [] rest
      | StartField =>
          if is_newline c then (row ++ [[]]) :: read AtRecordStart [] [] rest
          else if is_quote c then read InQuoted [] row rest
          else if is_delimiter c then read StartField [] (row ++ [[]]) rest
          else read InField [c] row rest
      | InField =>
          if is_newline c then (row ++ [field]) :: read AtRecordStart [] [] rest
          else if is_delimiter c then read StartField [] (row ++ [field]) rest
          else read InField (field ++ [c]) row rest
      | InQuoted =>
          if is_quote c then read QuoteInQuoted field row rest
          else read InQuoted (field ++ [c]) row rest
      | QuoteInQuoted =>
          if is_quote c then read InQuoted (field ++ [c]) row rest
          else if is_delimiter c then read StartField [] (row ++ [field]) rest
          else if is_newline c then (row ++ [field]) :: read AtRecordStart [] [] rest
          else read InField (field ++ [c]) row rest
      end
  end.

Definition csv_rows (text : str) : list (list str) := read AtRecordStart [] [] text.

(** The text of a sequence of rows, as the writer writes them one after the
    other. *)
Definition log_text (rows : list (list str)) : str :=
  concat (map DataManager.csv_record rows).

(** The events of the endpoint before it calls the orchestrator's
    [analyze_transcript]. *)
Definition accepted_events : list event :=
  [ RunStart "api_analyze_transcript";
    Log INFO (py "Transcript analysis requested");
    Log INFO (py "CallTranscriptAnalyzer initialized successfully") ].

(** ** [src/api/fastapi_app.py], and the rest of [routes.py] and [models.py] *)
Module Api.

(** A JSON value, as far as the endpoints exchange any. *)
Inductive jvalue : Type :=
| JStr (s : str)
| JBool (b : bool).

(** [models.py]: the health check schema. *)
Record HealthResponse : Type := mkHealth {
  status : str;
  message : str
}.

(** What the server sends back: a status code and a JSON object. *)
Record reply : Type := mkReply {
  status_code : Z;
  body : gmap string jvalue
}.

(** [routes.py], [GET /health] *)
Definition health_check : M HealthResponse :=
  do_ logger_info (py "Health check requested");
  ret (mkHealth (py "Healthy") (py "Call Transcript Analyzer API is running")).

(** [fastapi_app.py], [GET /] *)
Definition root : M (gmap string jvalue) :=
  ret (<["message" := JStr (py "Call Transcript Analyzer API")]>
         (<["docs" := JStr (py "/docs")]>
            (<["health" := JStr (py "/api/health")]> ∅))).

(** The response models as JSON objects. *)
Definition transcript_json (r : Routes.TranscriptResponse) : gmap string jvalue :=
  <["transcript" := JStr (Routes.transcript r)]>
    (<["summary" := JStr (Routes.summary r)]>
       (<["sentiment" := JStr (Routes.sentiment r)]>
          (<["success" := JBool (Routes.success r)]> ∅))).

Definition health_json (r : HealthResponse) : gmap string jvalue :=
  <["status" := JStr (status r)]> (<["message" := JStr (message r)]> ∅).

(** A code point that UTF-8 has no encoding for: a surrogate. *)
Definition is_surrogate (c : N) : bool := ((55296 <=? c) && (c <=? 57343))%N.

(** The strings and the JSON objects that can be sent, encoded as UTF-8. *)
Definition encodable (s : str) : bool := forallb (fun c => negb (is_surrogate c)) s.

Definition encodable_value (v : jvalue) : bool :=
  match v with
  | JStr s => encodable s
  | JBool _ => true
  end.

Definition serialisable (data : gmap string jvalue) : bool :=
  forallb (fun entry => encodable_value (snd entry)) (map_to_list data).

(** What is sent when the server fails outside the handler's own errors. *)
Definition server_error : reply :=
  mkReply 500 {[ "detail"%string := JStr (py "Internal Server Error") ]}.

(** FastAPI around a handler: the returned model is to go out with status
    200, an [HTTPException] with its own status and its detail, anything
    else that is raised as a 500.  The answer is encoded once the handler is
    done: one that cannot be encoded, because a string of it holds a lone
    surrogate, is replaced by a 500 as well, with the effects of the handler
    in place. *)
Definition respond {A} (to_json : A -> gmap string jvalue) (handler : M A)
  : World -> reply * World :=
  fun w =>
    let (outcome, w') := handler w in
    let answer :=
      match outcome with
      | Ok a => mkReply 200 (to_json a)
      | Raise (Py.HTTPException code detail) =>
          mkReply code {[ "detail"%string := JStr detail ]}
      | Raise _ => server_error
      end in
    if serialisable (body answer) then (answer, w') else (server_error, w').

Definition error_reply (code : Z) (detail : string) : World -> reply * World :=
  fun w => (mkReply code {[ "detail"%string := JStr (py detail) ]}, w).

(** [app.include_router(router, prefix="/api")] *)
Definition router_prefix : string := "/api".

(** The application: the routes of the router under its prefix, and the root
    route (the documentation pages FastAPI adds are left out).  A known path
    with another method is a 405, an unknown path a 404, a body without a
    string "transcript" a 422. *)
Definition app (env : Env) (method path : string) (json : option (gmap string jvalue))
  : World -> reply * World :=
  if String.eqb path (router_prefix ++ "/analyze-transcript") then
    if String.eqb method "POST" then
      match json with
      | Some data =>
          match data !! "transcript"%string with
          | Some (JStr transcript) =>
              respond transcript_json
                      (Routes.analyze_transcript env (Routes.mkRequest transcript))
          | _ => error_reply 422 "Unprocessable Entity"
          end
      | None => error_reply 422 "Unprocessable Entity"
      end
    else error_reply 405 "Method Not Allowed"
  else if String.eqb path (router_prefix ++ "/health") then
    if String.eqb method "GET" then respond health_json health_check
    else error_reply 405 "Method Not Allowed"
  else if String.eqb path "/" then
    if String.eqb method "GET" then respond (fun data => data) root
    else error_reply 405 "Method Not Allowed"
  else error_reply 404 "Not Found".

End Api.

(** ** [src/frontend/streamlit_app.py] *)
Module Streamlit.

(** What the page shows, in the order of the [st] calls; an expander holds
    the one value written inside it. *)
Inductive widget : Type :=
| st_error (msg : str)
| st_success (msg : str)
| st_subheader (msg : str)
| st_write (content : Api.jvalue)
| st_info (content : Api.jvalue)
| st_expander (label : str) (content : Api.jvalue).

(** [st.session_state] *)
Record session : Type := mkSession {
  transcript_input : str;
  analysis_result : option (gmap string Api.jvalue);
  show_results : bool
}.

(** The session of a fresh page. *)
Definition initial_session : session := mkSession [] None false.

(** The connection to the backend: [requests] may fail before any answer
    arrives; [http_error] is the text of the [HTTPError] that
    [raise_for_status] raises for a status and a URL. *)
Record Net : Type := mkNet {
  connection_fault : option str;
  http_error : Z -> string -> str
}.

(** Where the backend listens, and [API_BASE_URL]. *)
Definition origin : string := "http://127.0.0.1:8000".
Definition API_BASE_URL : string := "http://127.0.0.1:8000/api".

(** What is left of a string after a prefix, when it starts with it. *)
Fixpoint strip_prefix (prefix s : string) : option string :=
  match prefix with
  | EmptyString => Some s
  | String a prefix' =>
      match s with
      | String b s' => if Ascii.eqb a b then strip_prefix prefix' s' else None
      | EmptyString => None
      end
  end.

(** The path of a URL at the backend's origin. *)
Definition path_of (url : string) : option string := strip_prefix origin url.

(** Truthiness of the values the page tests. *)
Definition truthy_value (v : option Api.jvalue) : bool :=
  match v with
  | Some (Api.JStr s) => Py.truthy s
  | Some (Api.JBool b) => b
  | None => false
  end.

Definition truthy_dict (d : option (gmap string Api.jvalue)) : bool :=
  match d with
  | Some data => negb (bool_decide (data = ∅))
  | None => false
  end.

(** Emoji of the messages, as code points. *)
Definition cross_mark : N := 10060.
Definition check_mark : N := 9989.
Definition floppy_disk : N := 128190.
Definition memo : N := 128221.
Definition smiling_face : N := 128522.
Definition clipboard : N := 128203.
Definition page_facing_up : N := 128196.

Section WithBackend.
Variable env : Env.
Variable net : Net.

(** [make_api_call(endpoint, data)]: the parsed answer, or [None] with an
    error on the page when the connection fails or the status is an error
    (a URL outside the backend's origin, which [API_BASE_URL] never gives,
    counts as a failed connection). *)
Definition make_api_call (endpoint : string) (data : option (gmap string Api.jvalue))
           (w : World)
  : option (gmap string Api.jvalue) * list widget * World :=
  let url := (API_BASE_URL ++ endpoint)%string in
  match connection_fault net, path_of url with
  | Some msg, _ => (None, [st_error (py "API Error: " ++ msg)], w)
  | None, None => (None, [st_error (py "API Error: " ++ py url)], w)
  | None, Some path =>
      let (answer, w') :=
        Api.app env (if truthy_dict data then "POST" else "GET")%string path
                (if truthy_dict data then data else None) w in
      if ((400 <=? Api.status_code answer) && (Api.status_code answer <? 600))%Z
      then (None,
            [st_error (py "API Error: " ++ http_error net (Api.status_code answer) url)],
            w')
      else (Some (Api.body answer), [], w')
  end.

(** The "Check API Status" button of the sidebar. *)
Definition check_api_status (w : World) : list widget * World :=
  let '(health_response, shown, w') := make_api_call "/health" None w in
  if truthy_dict health_response
  then (shown ++ [st_success
                    (check_mark :: py " "
                     ++ match health_response with
                        | Some data =>
                            match data !! "message"%string with
                            | Some (Api.JStr msg) => msg
                            | Some (Api.JBool true) => py "True"
                            | Some (Api.JBool false) => py "False"
                            | None => py "API is healthy"
                            end
                        | None => py "API is healthy"
                        end)],
        w')
  else (shown ++ [st_error (cross_mark :: py " API is not responding")], w').

(** The "Analyze Transcript" button: the block under [if analyze_button]. *)
Definition process_analysis (s : session) (w : World)
  : session * list widget * World :=
  if negb (Py.truthy (Py.strip (transcript_input s)))
  then (s, [st_error (cross_mark :: py " Please enter a transcript to analyze")], w)
  else if (Py.len (Py.strip (transcript_input s)) <? 10)%nat
  then (s, [st_error (cross_mark
                      :: py " Transcript is too short for meaningful analysis")], w)
  else
    let '(result, shown, w') :=
      make_api_call "/analyze-transcript"
                    (Some {[ "transcript"%string := Api.JStr (transcript_input s) ]}) w in
    if truthy_dict result
       && truthy_value (match result with
                        | Some data => data !! "success"%string
                        | None => None
                        end)
    then (mkSession [] result true, shown, w')
    else (s,
          shown ++ [st_error (cross_mark
                              :: py " Analysis failed. Please check the API connection.")],
          w').

End WithBackend.

(** [d[key]] on a JSON object *)
Definition json_getitem (d : gmap string Api.jvalue) (key : string) : res Api.jvalue :=
  match d !! key with
  | Some v => Ok v
  | None => Raise (Py.KeyError key)
  end.

(** The block under "Display results if available": what it shows, or the
    [KeyError] that stops the script. *)
Definition display_results (s : session) : res (list widget) :=
  if show_results s && truthy_dict (analysis_result s)
  then
    match analysis_result s with
    | Some result =>
        match json_getitem result "summary" with
        | Raise e => Raise e
        | Ok summary =>
            match json_getitem result "sentiment" with
            | Raise e => Raise e
            | Ok sentiment =>
                match json_getitem result "transcript" with
                | Raise e => Raise e
                | Ok transcript =>
                    Ok [ st_success (check_mark :: py " Analysis completed successfully!");
                         st_subheader (clipboard :: py " Analysis Results");
                         st_write (Api.JStr (py "**" ++ memo :: py " Summary:**"));
                         st_info summary;
                         st_write (Api.JStr (py "**" ++ smiling_face
                                             :: py " Detected Sentiment:**"));
                         st_info sentiment;
                         st_expander (page_facing_up :: py " Original Transcript")
                                     transcript;
                         st_success (floppy_disk
                                     :: py " Results automatically saved to call_analysis.csv") ]
                end
            end
        end
    | None => Ok []
    end
  else Ok [].

(** [clear_input] *)
Definition clear_input (s : session) : session := mkSession [] None false.



End Streamlit.

(** *** Vocabulary of the further properties *)

(** A string of whitespace only. *)
Definition blank (s : str) : bool := forallb Py.isspace s.

(** No file operation of a save fails, whether the log exists or not. *)
Definition io_clean (env : Env) : bool := negb (io_fails env false).

(** A computation keeps a relation between the world before and after. *)
Definition keeps (R : World -> World -> Prop) {A} (m : M A) : Prop :=
  forall w, R w (snd (m w)).

(** Files are only appended to: what a file held is still how it starts. *)
Definition append_only (w w' : World) : Prop :=
  forall p old, files w !! p = Some old ->
                exists suffix, files w' !! p = Some (old ++ suffix).

(** No file but the log is created, changed or removed. *)
Definition only_log_changes (w w' : World) : Prop :=
  forall p, p <> csv_path -> files w' !! p = files w !! p.

(** Requests served one after the other, each in its own environment. *)
Fixpoint serve_all (requests : list (Env * str)) (w : World)
  : list (res Routes.TranscriptResponse) * World :=
  match requests with
  | [] => ([], w)
  | (env, transcript) :: rest =>
      let (r, w1) := Routes.analyze_transcript env (Routes.mkRequest transcript) w in
      let (rs, w2) := serve_all rest w1 in
      (r :: rs, w2)
  end.

(** The row and the response of a request served without any failure. *)
Definition row_of (request : Env * str) : list str :=
  [ snd request;
    summary_of (analyzer_of (fst request)) (snd request);
    sentiment_of (analyzer_of (fst request)) (snd request) ].

Definition response_of (request : Env * str) : Routes.TranscriptResponse :=
  Routes.mkResponse (snd request)
    (summary_of (analyzer_of (fst request)) (snd request))
    (sentiment_of (analyzer_of (fst request)) (snd request)) true.

(** A request that is accepted and served without any failure. *)
Definition fair (request : Env * str) : Prop :=
  passes_validation (snd request)
  /\ groq_init (fst request) = None
  /\ rt_clean (fst request) = true
  /\ io_clean (fst request) = true.

(** *** Inputs of the further examples *)

(** A dictionary with a key [save_to_csv] does not know and two it misses. *)
Definition stray_keys : dict :=
  <["status" := py "failed"]> (<["transcript" := outage_call]> ∅).

(** Rows with a quote, a comma and a line end inside fields, and a row of
    empty fields. *)
Definition awkward_rows : list (list str) :=
  [ [py "He said: " ++ [34] ++ py "no, thanks" ++ [34]; [13; 10]; py "a,b"];
    [[]; []; []] ].

(** A session whose stored result, if any, is a response of the endpoint. *)
Definition session_ok (s : Streamlit.session) : Prop :=
  match Streamlit.analysis_result s with
  | Some result => exists r, result = Api.transcript_json r
  | None => True
  end.

(** What the page shows for a stored response. *)
Definition results_page (r : Routes.TranscriptResponse) : list Streamlit.widget :=
  [ Streamlit.st_success
      (Streamlit.check_mark :: py " Analysis completed successfully!");
    Streamlit.st_subheader (Streamlit.clipboard :: py " Analysis Results");
    Streamlit.st_write (Api.JStr (py "**" ++ Streamlit.memo :: py " Summary:**"));
    Streamlit.st_info (Api.JStr (Routes.summary r));
    Streamlit.st_write
      (Api.JStr (py "**" ++ Streamlit.smiling_face :: py " Detected Sentiment:**"));
    Streamlit.st_info (Api.JStr (Routes.sentiment r));
    Streamlit.st_expander (Streamlit.page_facing_up :: py " Original Transcript")
                          (Api.JStr (Routes.transcript r));
    Streamlit.st_success
      (Streamlit.floppy_disk :: py " Results automatically saved to call_analysis.csv") ].

(** The two errors the page shows when a request got no usable answer. *)
Definition failure_page (reason : str) : list Streamlit.widget :=
  [ Streamlit.st_error (py "API Error: " ++ reason);
    Streamlit.st_error
      (Streamlit.cross_mark :: py " Analysis failed. Please check the API connection.") ].

(** The URL of the analysis endpoint as the page builds it. *)
Definition analyze_url : string :=
  (Streamlit.API_BASE_URL ++ "/analyze-transcript")%string.

(** A connection that works. *)
Definition good_net : Streamlit.Net :=
  Streamlit.mkNet None (fun code url => py "HTTP error for url: " ++ py url).



(** The page with a transcript typed in. *)
Definition typed (t : str) : Streamlit.session := Streamlit.mkSession t None false.

(** * Proofs *)

Arguments Py.of_string : simpl never.
Arguments DataManager.csv_record : simpl never.
Arguments dict_get : simpl never.

Ltac py_unfold :=
  unfold traceable, try_except, bind, emit, logger_info, logger_error, getitem.

Ltac py_norm := cbn; rewrite <- ?app_assoc; cbn [app].

Ltac split5 := split; [|split; [|split; [|split]]].

(** ** Running monadic code *)

Lemma bind_Ok {A B} (m : M A) (k : A -> M B) w a w' :
  m w = (Ok a, w') -> bind m k w = k a w'.
Proof. intros H. unfold bind. now rewrite H. Qed.

Lemma bind_Raise {A B} (m : M A) (k : A -> M B) w e w' :
  m w = (Raise e, w') -> bind m k w = (Raise e, w').
Proof. intros H. unfold bind. now rewrite H. Qed.

Lemma try_except_Ok {A} (m : M A) h w a w' :
  m w = (Ok a, w') -> try_except m h w = (Ok a, w').
Proof. intros H. unfold try_except. now rewrite H. Qed.

Lemma try_except_Raise {A} (m : M A) h w e w' :
  m w = (Raise e, w') -> try_except m h w = h e w'.
Proof. intros H. unfold try_except. now rewrite H. Qed.

Lemma traceable_Ok {A} name (m : M A) w a fs tr :
  m (mkWorld (files w) (trace w ++ [RunStart name])) = (Ok a, mkWorld fs tr) ->
  traceable name m w = (Ok a, mkWorld fs (tr ++ [RunEnd name])).
Proof. intros H. unfold traceable, bind, emit. cbn. now rewrite H. Qed.

Lemma traceable_Raise {A} name (m : M A) w e fs tr :
  m (mkWorld (files w) (trace w ++ [RunStart name])) = (Raise e, mkWorld fs tr) ->
  traceable name m w = (Raise e, mkWorld fs (tr ++ [RunFailed name])).
Proof. intros H. unfold traceable, bind, emit. cbn. now rewrite H. Qed.

(** ** Traces and dictionaries *)

Lemma runs_app a b : runs (a ++ b) = runs a ++ runs b.
Proof. apply List.filter_app. Qed.

Lemma runs_step name ev :
  is_run ev = false ->
  runs [RunStart name; ev; RunEnd name] = [RunStart name; RunEnd name].
Proof. intros H. unfold runs. cbn. now rewrite H. Qed.

Lemma dict_get_insert_eq (m : dict) k v d : dict_get (<[k := v]> m) k d = v.
Proof. unfold dict_get. now rewrite lookup_insert_eq. Qed.

Lemma dict_get_Some (m : dict) k v d : m !! k = Some v -> dict_get m k d = v.
Proof. intros H. unfold dict_get. now rewrite H. Qed.

Lemma data_row_record t s m : data_row (record t s m) = [t; s; m].
Proof. reflexivity. Qed.

(** ** The two inference steps *)
Section Nodes.
Variable self : Orchestrator.t.

Lemma summary_log_is_log t : is_run (summary_log self t) = false.
Proof. unfold summary_log. now destruct (Orchestrator.summary_llm self t). Qed.

Lemma sentiment_log_is_log t : is_run (sentiment_log self t) = false.
Proof. unfold sentiment_log. now destruct (Orchestrator.sentiment_llm self t). Qed.

Lemma summary_node_spec state t w :
  state !! "transcript"%string = Some t ->
  Orchestrator.summary_node self state w =
    (Ok {[ "summary"%string := summary_of self t ]},
     mkWorld (files w)
             (trace w ++ [RunStart "node_summarize_transcript"; summary_log self t;
                          RunEnd "node_summarize_transcript"])).
Proof.
  intros Ht. unfold Orchestrator.summary_node, summary_of, summary_log.
  py_unfold. unfold Orchestrator.chain_invoke, ret, raise. rewrite Ht.
  destruct (Orchestrator.summary_llm self t); py_norm; reflexivity.
Qed.

Lemma sentiment_node_spec state t w :
  state !! "transcript"%string = Some t ->
  Orchestrator.sentiment_node self state w =
    (Ok {[ "sentiment"%string := sentiment_of self t ]},
     mkWorld (files w)
             (trace w ++ [RunStart "node_analyze_sentiment"; sentiment_log self t;
                          RunEnd "node_analyze_sentiment"])).
Proof.
  intros Ht. unfold Orchestrator.sentiment_node, sentiment_of, sentiment_log.
  py_unfold. unfold Orchestrator.chain_invoke, ret, raise. rewrite Ht.
  destruct (Orchestrator.sentiment_llm self t); py_norm; reflexivity.
Qed.

Lemma state1_lookup t :
  state1 self t !! "transcript"%string = Some t
  /\ state1 self t !! "summary"%string = Some (summary_of self t).
Proof. unfold state1, initial_state. split; simplify_map_eq; reflexivity. Qed.

Lemma state2_lookup t :
  state2 self t !! "transcript"%string = Some t
  /\ state2 self t !! "summary"%string = Some (summary_of self t)
  /\ state2 self t !! "sentiment"%string = Some (sentiment_of self t).
Proof.
  unfold state2, state1, initial_state.
  repeat split; simplify_map_eq; reflexivity.
Qed.
End Nodes.

(** ** Persistence *)
Section Saving.
Variable env : Env.
Variable path : string.

Lemma header_fields :
  DataManager.dict_to_list (DataManager.fieldnames (DataManager.init path))
    (list_to_map (map (fun k => (k, py k))
                      (DataManager.fieldnames (DataManager.init path))))
  = ret header_row.
Proof. reflexivity. Qed.

Lemma data_fields (data : dict) :
  DataManager.dict_to_list (DataManager.fieldnames (DataManager.init path))
    (<["Transcript" := dict_get data "transcript" []]>
       (<["Summary" := dict_get data "summary" []]>
          (<["Sentiment" := dict_get data "sentiment" []]> ∅)))
  = ret (data_row data).
Proof.
  unfold DataManager.dict_to_list. rewrite bool_decide_eq_true_2.
  - cbn [map DataManager.fieldnames DataManager.init].
    unfold dict_get at 1 5 9. simplify_map_eq. reflexivity.
  - do 3 (apply map_Forall_insert_2; [cbn; repeat constructor|]).
    apply map_Forall_empty.
Qed.

Ltac io_case op :=
  let E := fresh "E" in
  destruct (io_fault env op) eqn:E.

(** One call of [save_to_csv]: it returns, the answer tells whether a file
    operation failed, only the log file can change, and after a success
    the file is the old one (or a fresh header) followed by the row. *)
Lemma save_to_csv_spec data w :
  exists w',
    DataManager.save_to_csv env (DataManager.init path) data w
    = (Ok (negb (io_fails env (bool_decide (is_Some (files w !! path))))), w')
    /\ runs (trace w') = runs (trace w)
    /\ (forall p, p <> path -> files w' !! p = files w !! p)
    /\ (io_fails env (bool_decide (is_Some (files w !! path))) = false ->
        files w' = <[path := appended (files w !! path) (data_row data)]> (files w)).
Proof.
  unfold DataManager.save_to_csv, DataManager.with_open,
    DataManager.writeheader, DataManager.writerow.
  unfold io_fails, io_plan, appended, log_before.
  unfold try_except at 1. unfold bind at 1. unfold DataManager.isfile at 1.
  cbn [DataManager.csv_filename DataManager.init].
  rewrite header_fields, data_fields.
  unfold DataManager.fclose, DataManager.fwrite, DataManager.open_append,
    DataManager.io_raise.
  py_unfold.
  destruct (files w !! path) as [old|] eqn:Hold;
    [rewrite bool_decide_eq_true_2 by eauto
    |rewrite bool_decide_eq_false_2 by (intros [? ?]; discriminate)].
  all: cbn [existsb].
  all: io_case IoOpen; io_case IoWriteRow; io_case IoClose.
  all: try io_case IoWriteHeader.
  all: cbn; rewrite ?Hold; cbn.
  all: eexists; split; [reflexivity|].
  all: split; [cbn [trace]; rewrite ?runs_app; cbn; rewrite ?app_nil_r; reflexivity|].
  all: split; [intros p Hp; cbn [files]; rewrite ?lookup_insert_ne by done; reflexivity|].
  all: intros Hok; try discriminate Hok.
  all: cbn [files]; rewrite ?dict_get_insert_eq, ?insert_insert_eq.
  all: try rewrite (dict_get_Some _ _ _ [] Hold).
  all: reflexivity.
Qed.

(** [save_to_csv] never raises, whatever the manager's columns are. *)
Lemma save_to_csv_returns self data w :
  exists b w', DataManager.save_to_csv env self data w = (Ok b, w').
Proof.
  unfold DataManager.save_to_csv, try_except.
  match goal with |- context [match ?m w with _ => _ end] => destruct (m w) as [[b|e] w1] end.
  - now exists b, w1.
  - eexists _, _. reflexivity.
Qed.
End Saving.

(** ** The graph runtime on a chain of nodes *)
Section Supersteps.
Variable env : Env.

Lemma rt_raise_None p w :
  langgraph_fault env p = None -> LangGraph.rt_raise env p w = (Ok tt, w).
Proof. intros H. unfold LangGraph.rt_raise. now rewrite H. Qed.

Lemma rt_raise_Some p msg w :
  langgraph_fault env p = Some msg ->
  LangGraph.rt_raise env p w = (Raise (Py.Exception msg), w).
Proof. intros H. unfold LangGraph.rt_raise. now rewrite H. Qed.

Lemma live_node name :
  String.eqb name LangGraph.END = false -> LangGraph.live [name] = [name].
Proof. intros H. unfold LangGraph.live. cbn. now rewrite H. Qed.

(** One superstep with a single active node. *)
Lemma supersteps_node fuel step g name action state w update w' :
  String.eqb name LangGraph.END = false ->
  LangGraph.lookup_node (LangGraph.nodes g) name = Some action ->
  langgraph_fault env (AtSuperstep step) = None ->
  action state w = (Ok update, w') ->
  LangGraph.supersteps env (S fuel) step g [name] state w
  = LangGraph.supersteps env fuel (S step) g
      (LangGraph.successors g name ++ []) (update ∪ state) w'.
Proof.
  intros Hname Hnode Hrt Hact. cbn [LangGraph.supersteps].
  rewrite (live_node _ Hname).
  erewrite bind_Ok by (apply rt_raise_None, Hrt).
  cbn [LangGraph.run_nodes]. rewrite Hnode.
  erewrite bind_Ok.
  2:{ erewrite bind_Ok by exact Hact. reflexivity. }
  reflexivity.
Qed.

Lemma supersteps_fault fuel step g name state w msg :
  String.eqb name LangGraph.END = false ->
  langgraph_fault env (AtSuperstep step) = Some msg ->
  LangGraph.supersteps env (S fuel) step g [name] state w
  = (Raise (Py.Exception msg), w).
Proof.
  intros Hname Hrt. cbn [LangGraph.supersteps].
  rewrite (live_node _ Hname).
  erewrite bind_Raise by (apply rt_raise_Some, Hrt). reflexivity.
Qed.

Lemma supersteps_end fuel step g state w :
  LangGraph.supersteps env fuel step g [LangGraph.END] state w
  = (do_ LangGraph.rt_raise env AtFinish; ret state) w.
Proof. destruct fuel; reflexivity. Qed.

Lemma rt_clean_true :
  rt_clean env = true <->
  Forall (fun p => langgraph_fault env p = None) rt_points.
Proof.
  unfold rt_clean. rewrite forallb_forall, List.Forall_forall.
  split; intros H p Hp; specialize (H p Hp).
  - now apply bool_decide_eq_true in H.
  - now apply bool_decide_eq_true.
Qed.

Lemma rt_clean_false p msg :
  In p rt_points -> langgraph_fault env p = Some msg -> rt_clean env = false.
Proof.
  intros Hin Hp. destruct (rt_clean env) eqn:E; [|reflexivity].
  apply rt_clean_true in E. rewrite List.Forall_forall in E.
  specialize (E p Hin). congruence.
Qed.
End Supersteps.

(** ** The workflow *)
Section Workflow.
Variable env : Env.
Variable self : Orchestrator.t.

Local Abbreviation graph := (Orchestrator.workflow_graph env self).

Lemma save_node_spec state t s m w :
  state !! "transcript"%string = Some t ->
  state !! "summary"%string = Some s ->
  state !! "sentiment"%string = Some m ->
  exists w',
    Orchestrator.save_node env self state w = (Ok ∅, w')
    /\ runs (trace w')
       = runs (trace w) ++ [RunStart "node_save_results"; RunEnd "node_save_results"]
    /\ (forall p, p <> csv_path -> files w' !! p = files w !! p)
    /\ (io_fails env (bool_decide (is_Some (files w !! csv_path))) = false ->
        files w' = <[csv_path := appended (files w !! csv_path) [t; s; m]]> (files w)).
Proof.
  intros Ht Hs Hm.
  destruct (save_to_csv_spec env csv_path (record t s m)
              (mkWorld (files w) (trace w ++ [RunStart "node_save_results"])))
    as (w1 & Hsave & Hruns & Hother & Hfiles).
  cbn [files trace] in *.
  assert (Hrun : Orchestrator.save_node env self state w
                 = (Ok ∅,
                    mkWorld (files w1)
                      ((trace w1
                        ++ [if io_fails env (bool_decide (is_Some (files w !! csv_path)))
                            then Log ERROR (py "Failed to save results to CSV")
                            else Log INFO (py "Results saved to CSV successfully")])
                       ++ [RunEnd "node_save_results"]))).
  { unfold Orchestrator.save_node. erewrite traceable_Ok; [reflexivity|].
    apply try_except_Ok. unfold getitem. rewrite Ht, Hs, Hm.
    do 3 (erewrite bind_Ok by reflexivity).
    erewrite bind_Ok by exact Hsave.
    destruct (io_fails env _); reflexivity. }
  eexists. split; [exact Hrun|]. cbn [files trace]. split; [|split].
  - rewrite !runs_app, Hruns, runs_app.
    destruct (io_fails env _); cbn; rewrite <- ?app_assoc; reflexivity.
  - exact Hother.
  - exact Hfiles.
Qed.

Lemma compile_workflow w :
  LangGraph.compile env graph w
  = match langgraph_fault env AtCompile with
    | Some msg => (Raise (Py.Exception msg), w)
    | None => (Ok graph, w)
    end.
Proof.
  unfold LangGraph.compile, LangGraph.rt_raise, bind.
  destruct (langgraph_fault env AtCompile); reflexivity.
Qed.

Lemma invoke_unfold t w :
  LangGraph.invoke env graph (initial_state t) w
  = LangGraph.supersteps env 25 0 graph ["summarize"%string] (initial_state t) w.
Proof. reflexivity. Qed.

Ltac faulty p H :=
  right; split; [apply (rt_clean_false env p _ ltac:(cbn; tauto) H)|].

(** Every run of the body of [analyze_transcript], whatever fails: the
    steps that ran, what can have changed on disk, and the result. *)
Lemma run_workflow_outcome t w :
  exists w' steps,
    runs (trace w') = runs (trace w) ++ steps
    /\ steps `prefix_of` three_steps
    /\ (forall p, p <> csv_path -> files w' !! p = files w !! p)
    /\ (In (RunStart "node_save_results") steps \/ files w' = files w)
    /\ ((rt_clean env = true
         /\ Orchestrator.run_workflow env self t w
            = (Ok (record t (summary_of self t) (sentiment_of self t)), w')
         /\ steps = three_steps
         /\ (io_fails env (bool_decide (is_Some (files w !! csv_path))) = false ->
             files w'
             = <[csv_path := appended (files w !! csv_path)
                               [t; summary_of self t; sentiment_of self t]]>
                 (files w)))
        \/ (rt_clean env = false
            /\ exists msg, Orchestrator.run_workflow env self t w
                           = (Raise (Py.Exception msg), w'))).
Proof.
  remember (Orchestrator.run_workflow env self t w) as out eqn:Hout.
  unfold Orchestrator.run_workflow in Hout. fold (initial_state t) in Hout.
  unfold bind at 1 in Hout. rewrite compile_workflow in Hout.
  destruct (langgraph_fault env AtCompile) as [msg|] eqn:Hc.
  { exists w, []. rewrite app_nil_r.
    split5; [reflexivity|apply prefix_nil|reflexivity|now right|].
    faulty AtCompile Hc. now exists msg. }
  erewrite bind_Ok in Hout by reflexivity.
  set (w0 := mkWorld (files w)
               (trace w ++ [Log INFO (py "Starting transcript analysis workflow")])) in *.
  assert (Hw0 : runs (trace w0) = runs (trace w)).
  { unfold w0. cbn [trace]. rewrite runs_app. cbn. apply app_nil_r. }
  pose proof (invoke_unfold t w0) as Hinv.
  destruct (langgraph_fault env (AtSuperstep 0)) as [msg|] eqn:H0.
  { exists w0, []. rewrite app_nil_r.
    split5; [exact Hw0|apply prefix_nil|reflexivity|now right|].
    faulty (AtSuperstep 0) H0. exists msg.
    rewrite supersteps_fault with (msg := msg) in Hinv by easy.
    now erewrite bind_Raise in Hout by exact Hinv. }
  erewrite (supersteps_node env _ _ _ "summarize") in Hinv;
    [|reflexivity|reflexivity|exact H0|apply summary_node_spec; reflexivity].
  change (LangGraph.successors graph "summarize" ++ [])
    with ["analyze_sentiment"%string] in Hinv.
  fold (state1 self t) in Hinv.
  set (w1 := mkWorld (files w0)
               (trace w0 ++ [RunStart "node_summarize_transcript"; summary_log self t;
                             RunEnd "node_summarize_transcript"])) in *.
  assert (Hw1 : runs (trace w1) = runs (trace w) ++ firstn 2 three_steps).
  { unfold w1. cbn [trace]. rewrite runs_app, Hw0.
    now rewrite (runs_step _ _ (summary_log_is_log self t)). }
  destruct (langgraph_fault env (AtSuperstep 1)) as [msg|] eqn:H1.
  { exists w1, (firstn 2 three_steps).
    split5; [exact Hw1|now exists (skipn 2 three_steps)|reflexivity|now right|].
    faulty (AtSuperstep 1) H1. exists msg.
    rewrite supersteps_fault with (msg := msg) in Hinv by easy.
    now erewrite bind_Raise in Hout by exact Hinv. }
  erewrite (supersteps_node env _ _ _ "analyze_sentiment") in Hinv;
    [|reflexivity|reflexivity|exact H1
     |apply sentiment_node_spec; apply (proj1 (state1_lookup self t))].
  change (LangGraph.successors graph "analyze_sentiment" ++ [])
    with ["save_results"%string] in Hinv.
  fold (state2 self t) in Hinv.
  set (w2 := mkWorld (files w1)
               (trace w1 ++ [RunStart "node_analyze_sentiment"; sentiment_log self t;
                             RunEnd "node_analyze_sentiment"])) in *.
  assert (Hw2 : runs (trace w2) = runs (trace w) ++ firstn 4 three_steps).
  { unfold w2. cbn [trace]. rewrite runs_app, Hw1.
    rewrite (runs_step _ _ (sentiment_log_is_log self t)).
    now rewrite <- app_assoc. }
  destruct (langgraph_fault env (AtSuperstep 2)) as [msg|] eqn:H2.
  { exists w2, (firstn 4 three_steps).
    split5; [exact Hw2|now exists (skipn 4 three_steps)|reflexivity|now right|].
    faulty (AtSuperstep 2) H2. exists msg.
    rewrite supersteps_fault with (msg := msg) in Hinv by easy.
    now erewrite bind_Raise in Hout by exact Hinv. }
  destruct (state2_lookup self t) as (Ht2 & Hs2 & Hm2).
  destruct (save_node_spec (state2 self t) _ _ _ w2 Ht2 Hs2 Hm2)
    as (w3 & Hsave & Hruns & Hother & Hfiles).
  rewrite Hw2 in Hruns. cbn [files w2 w1 w0] in Hother, Hfiles.
  erewrite (supersteps_node env _ _ _ "save_results") in Hinv;
    [|reflexivity|reflexivity|exact H2|exact Hsave].
  change (LangGraph.successors graph "save_results" ++ []) with [LangGraph.END] in Hinv.
  rewrite supersteps_end in Hinv.
  assert (Hsteps : runs (trace w3) = runs (trace w) ++ three_steps).
  { rewrite Hruns, <- app_assoc. reflexivity. }
  destruct (langgraph_fault env AtFinish) as [msg|] eqn:H3.
  { exists w3, three_steps.
    split5; [exact Hsteps|reflexivity|exact Hother|left; cbn; tauto|].
    faulty AtFinish H3. exists msg.
    erewrite bind_Raise in Hinv by (apply rt_raise_Some; exact H3).
    now erewrite bind_Raise in Hout by exact Hinv. }
  exists (mkWorld (files w3)
            (trace w3 ++ [Log INFO (py "Workflow completed successfully")])),
         three_steps.
  cbn [files trace].
  split5; [|reflexivity|exact Hother|left; cbn; tauto|].
  { rewrite runs_app, Hsteps. cbn. apply app_nil_r. }
  left. split; [|split; [|split; [reflexivity|exact Hfiles]]].
  { apply rt_clean_true. unfold rt_points. repeat constructor; assumption. }
  erewrite bind_Ok in Hinv by (apply rt_raise_None; exact H3).
  erewrite bind_Ok in Hout by exact Hinv.
  erewrite bind_Ok in Hout by reflexivity.
  unfold getitem in Hout.
  rewrite (left_id_L ∅ (∪)), Ht2, Hs2, Hm2 in Hout. exact Hout.
Qed.

(** The handler of [analyze_transcript]: an exception of the body becomes
    the degraded record; the handler writes one log line and no file. *)
Lemma analyze_transcript_handler t w e fs tr :
  Orchestrator.run_workflow env self t
    (mkWorld (files w) (trace w ++ [RunStart "call_transcript_workflow"]))
  = (Raise e, mkWorld fs tr) ->
  Orchestrator.analyze_transcript env self t w
  = (Ok (Orchestrator.degraded t),
     mkWorld fs (tr ++ [Log ERROR (py "Workflow execution failed: " ++ Py.exn_str e);
                        RunEnd "call_transcript_workflow"])).
Proof.
  intros Hrun. unfold Orchestrator.analyze_transcript.
  erewrite traceable_Ok; [|erewrite try_except_Raise by exact Hrun; reflexivity].
  now rewrite <- app_assoc.
Qed.

Lemma analyze_transcript_body t w d fs tr :
  Orchestrator.run_workflow env self t
    (mkWorld (files w) (trace w ++ [RunStart "call_transcript_workflow"]))
  = (Ok d, mkWorld fs tr) ->
  Orchestrator.analyze_transcript env self t w
  = (Ok d, mkWorld fs (tr ++ [RunEnd "call_transcript_workflow"])).
Proof.
  intros Hrun. unfold Orchestrator.analyze_transcript.
  erewrite traceable_Ok; [reflexivity|]. now apply try_except_Ok.
Qed.

(** Every call of [analyze_transcript] returns a record. *)
Lemma analyze_transcript_outcome t w :
  exists w' steps,
    Orchestrator.analyze_transcript env self t w
    = (Ok (if rt_clean env
           then record t (summary_of self t) (sentiment_of self t)
           else Orchestrator.degraded t), w')
    /\ runs (trace w')
       = runs (trace w)
           ++ RunStart "call_transcript_workflow" :: steps
           ++ [RunEnd "call_transcript_workflow"]
    /\ steps `prefix_of` three_steps
    /\ (rt_clean env = true -> steps = three_steps)
    /\ (forall p, p <> csv_path -> files w' !! p = files w !! p)
    /\ (In (RunStart "node_save_results") steps \/ files w' = files w)
    /\ (rt_clean env = true ->
        io_fails env (bool_decide (is_Some (files w !! csv_path))) = false ->
        files w'
        = <[csv_path := appended (files w !! csv_path)
                          [t; summary_of self t; sentiment_of self t]]> (files w)).
Proof.
  destruct (run_workflow_outcome t
              (mkWorld (files w) (trace w ++ [RunStart "call_transcript_workflow"])))
    as ([fs tr] & steps & Hruns & Hpre & Hother & Hsave & Hcases).
  cbn [files trace] in *.
  assert (Htr : forall evs, runs evs = [] ->
                 runs ((tr ++ evs) ++ [RunEnd "call_transcript_workflow"])
                 = runs (trace w)
                     ++ RunStart "call_transcript_workflow" :: steps
                     ++ [RunEnd "call_transcript_workflow"]).
  { intros evs Hev. rewrite !runs_app, Hruns, runs_app, Hev, <- !app_assoc.
    reflexivity. }
  destruct Hcases as [(Hclean & Hrun & Hsteps & Hfiles)|(Hclean & msg & Hrun)];
    rewrite Hclean.
  - exists (mkWorld fs (tr ++ [RunEnd "call_transcript_workflow"])), steps.
    cbn [files trace].
    split; [now apply analyze_transcript_body|].
    split; [rewrite <- (app_nil_r tr); now apply Htr|].
    repeat split; auto.
  - exists (mkWorld fs (tr ++ [Log ERROR (py "Workflow execution failed: " ++ msg);
                               RunEnd "call_transcript_workflow"])), steps.
    cbn [files trace].
    split; [exact (analyze_transcript_handler t w _ fs tr Hrun)|].
    split; [|repeat split; auto; discriminate].
    change (tr ++ [Log ERROR (py "Workflow execution failed: " ++ msg);
                   RunEnd "call_transcript_workflow"])
      with (tr ++ [Log ERROR (py "Workflow execution failed: " ++ msg)]
               ++ [RunEnd "call_transcript_workflow"]).
    rewrite app_assoc. now apply Htr.
Qed.
End Workflow.

(** ** The endpoint *)
Section Endpoint.
Variable env : Env.

Ltac trace_eq :=
  cbn [files trace Py.exn_str]; rewrite <- ?app_assoc; reflexivity.

Lemma passes_validation_nonempty t : passes_validation t -> t <> [].
Proof. intros H ->. unfold passes_validation in H. cbn in H. lia. Qed.

Lemma passes_validation_checks t :
  passes_validation t ->
  negb (Py.truthy (Py.strip t)) = false
  /\ (Py.len (Py.strip t) <? 10)%nat = false.
Proof.
  unfold passes_validation. intros H. split.
  - destruct (Py.strip t); [cbn in H; lia|reflexivity].
  - apply Nat.ltb_ge, H.
Qed.

(** A transcript that fails validation: a 400, and nothing but the
    request's own trace entries. *)
Lemma endpoint_rejects t w :
  (Py.len (Py.strip t) < 10)%nat ->
  Routes.analyze_transcript env (Routes.mkRequest t) w
  = (Raise (Py.HTTPException 400
              (if Py.truthy (Py.strip t)
               then py "Transcript too short for meaningful analysis"
               else py "Transcript cannot be empty")),
     mkWorld (files w) (trace w ++ rejected_events)).
Proof.
  intros Hshort. unfold Routes.analyze_transcript, Routes.handle.
  cbn [Routes.req_transcript].
  apply Nat.ltb_lt in Hshort.
  destruct (Py.truthy (Py.strip t)) eqn:Htruthy.
  all: erewrite traceable_Raise; cycle 1.
  1,3: unfold try_except, bind, logger_info, emit; cbn [files trace];
       rewrite ?Htruthy; cbn [negb]; rewrite ?Hshort; reflexivity.
  all: unfold rejected_events; trace_eq.
Qed.

(** The chat model cannot be constructed: a 500. *)
Lemma endpoint_init_fails t w msg :
  passes_validation t ->
  groq_init env = Some msg ->
  Routes.analyze_transcript env (Routes.mkRequest t) w
  = (Raise (Py.HTTPException 500 (py "Internal server error: " ++ msg)),
     mkWorld (files w)
       (trace w ++ [RunStart "api_analyze_transcript";
                    Log INFO (py "Transcript analysis requested");
                    Log ERROR (py "Unexpected error in analyze_transcript: " ++ msg);
                    RunFailed "api_analyze_transcript"])).
Proof.
  intros [Hc1 Hc2]%passes_validation_checks Hinit.
  unfold Routes.analyze_transcript, Routes.handle. cbn [Routes.req_transcript].
  erewrite traceable_Raise; cycle 1.
  { unfold try_except, bind, logger_info, logger_error, emit, Orchestrator.init.
    cbn [files trace]. rewrite Hc1, Hc2, Hinit. reflexivity. }
  trace_eq.
Qed.

Lemma endpoint_accepts t w :
  passes_validation t ->
  groq_init env = None ->
  exists w2,
    Orchestrator.analyze_transcript env (analyzer_of env) t
      (mkWorld (files w) (trace w ++ accepted_events))
    = (Ok (if rt_clean env
           then record t (summary_of (analyzer_of env) t)
                       (sentiment_of (analyzer_of env) t)
           else Orchestrator.degraded t), w2)
    /\ Routes.analyze_transcript env (Routes.mkRequest t) w
       = (Ok (if rt_clean env
              then Routes.mkResponse t (summary_of (analyzer_of env) t)
                                     (sentiment_of (analyzer_of env) t) true
              else Routes.mkResponse t (py "Error processing transcript")
                                     (py "Neutral") true),
          mkWorld (files w2)
            (trace w2
             ++ [Log INFO (py "Transcript analysis and CSV save completed successfully");
                 RunEnd "api_analyze_transcript"])).
Proof.
  intros [Hc1 Hc2]%passes_validation_checks Hinit.
  destruct (analyze_transcript_outcome env (analyzer_of env) t
              (mkWorld (files w) (trace w ++ accepted_events)))
    as (w2 & steps & Hrun & _).
  exists w2. split; [exact Hrun|].
  unfold Routes.analyze_transcript, Routes.handle. cbn [Routes.req_transcript].
  destruct w2 as [fs2 tr2]. cbn [files trace].
  destruct (rt_clean env).
  all: erewrite traceable_Ok; cycle 1.
  1,3: apply try_except_Ok.
  1,2: (
    erewrite bind_Ok by reflexivity; rewrite Hc1, Hc2;
    do 2 (erewrite bind_Ok by reflexivity);
    erewrite bind_Ok
      by (unfold Orchestrator.init; rewrite Hinit;
          erewrite bind_Ok by reflexivity; reflexivity);
    fold (analyzer_of env);
    erewrite bind_Ok by (cbn [files trace]; rewrite <- !app_assoc; exact Hrun);
    reflexivity).
  all: trace_eq.
Qed.
End Endpoint.

(** ** Reading back what the writer wrote *)
Section Reader.

Lemma not_special c :
  DataManager.special c = false ->
  is_newline c = false /\ is_quote c = false /\ is_delimiter c = false.
Proof.
  unfold DataManager.special, is_newline, is_quote, is_delimiter.
  destruct (c =? DataManager.delimiter), (c =? DataManager.quotechar),
    (c =? 13), (c =? 10); cbn; intros H; try discriminate H; auto.
Qed.

Lemma read_plain f : forall field row rest,
  existsb DataManager.special f = false ->
  read InField field row (f ++ rest) = read InField (field ++ f) row rest.
Proof.
  induction f as [|c f IH]; intros field row rest Hf.
  - now rewrite app_nil_r.
  - cbn [existsb] in Hf. apply orb_false_elim in Hf as [Hc Hf].
    destruct (not_special c Hc) as (Hnl & _ & Hd).
    cbn [app read]. rewrite Hnl, Hd, (IH _ _ _ Hf), <- app_assoc. reflexivity.
Qed.

Lemma read_quoted f : forall field row rest,
  read InQuoted field row (DataManager.escape f ++ DataManager.quotechar :: rest)
  = read QuoteInQuoted (field ++ f) row rest.
Proof.
  induction f as [|c f IH]; intros field row rest.
  - cbn. now rewrite app_nil_r.
  - cbn [DataManager.escape]. fold (is_quote c).
    destruct (is_quote c) eqn:Hq.
    + assert (c = DataManager.quotechar) as -> by (now apply N.eqb_eq).
      cbn [app read]. change (is_quote DataManager.quotechar) with true. cbn iota.
      rewrite IH, <- app_assoc. reflexivity.
    + cbn [app read]. rewrite Hq, IH, <- app_assoc. reflexivity.
Qed.

(** A field read at the start of a field, up to the delimiter or the line
    end that follows it. *)
Lemma read_field_delimiter f row rest :
  read StartField [] row (DataManager.csv_field f ++ DataManager.delimiter :: rest)
  = read StartField [] (row ++ [f]) rest.
Proof.
  unfold DataManager.csv_field. destruct (existsb DataManager.special f) eqn:Hf.
  - cbn [app read]. change (is_newline DataManager.quotechar) with false.
    change (is_quote DataManager.quotechar) with true. cbn iota.
    rewrite <- app_assoc. cbn [app]. rewrite read_quoted. reflexivity.
  - destruct f as [|c f]; [reflexivity|].
    cbn [existsb] in Hf. apply orb_false_elim in Hf as [Hc Hf].
    destruct (not_special c Hc) as (Hnl & Hq & Hd).
    cbn [app read]. rewrite Hnl, Hq, Hd, (read_plain _ _ _ _ Hf). reflexivity.
Qed.

Lemma read_field_newline f row rest :
  read StartField [] row (DataManager.csv_field f ++ DataManager.lineterminator ++ rest)
  = (row ++ [f]) :: read AtRecordStart [] [] rest.
Proof.
  unfold DataManager.csv_field. destruct (existsb DataManager.special f) eqn:Hf.
  - cbn [app read]. change (is_newline DataManager.quotechar) with false.
    change (is_quote DataManager.quotechar) with true. cbn iota.
    rewrite <- app_assoc. cbn [app]. rewrite read_quoted. reflexivity.
  - destruct f as [|c f]; [reflexivity|].
    cbn [existsb] in Hf. apply orb_false_elim in Hf as [Hc Hf].
    destruct (not_special c Hc) as (Hnl & Hq & Hd).
    cbn [app read]. rewrite Hnl, Hq, Hd, (read_plain _ _ _ _ Hf). reflexivity.
Qed.

(** The same at the start of a record; there an empty field must be followed
    by a delimiter, or be written in quotes. *)
Lemma read_first_delimiter f rest :
  read AtRecordStart [] [] (DataManager.csv_field f ++ DataManager.delimiter :: rest)
  = read StartField [] [f] rest.
Proof.
  unfold DataManager.csv_field. destruct (existsb DataManager.special f) eqn:Hf.
  - cbn [app read]. change (is_newline DataManager.quotechar) with false.
    change (is_quote DataManager.quotechar) with true. cbn iota.
    rewrite <- app_assoc. cbn [app]. rewrite read_quoted. reflexivity.
  - destruct f as [|c f]; [reflexivity|].
    cbn [existsb] in Hf. apply orb_false_elim in Hf as [Hc Hf].
    destruct (not_special c Hc) as (Hnl & Hq & Hd).
    cbn [app read]. rewrite Hnl, Hq, Hd, (read_plain _ _ _ _ Hf). reflexivity.
Qed.

Lemma read_first_newline f rest :
  f <> [] ->
  read AtRecordStart [] [] (DataManager.csv_field f ++ DataManager.lineterminator ++ rest)
  = [f] :: read AtRecordStart [] [] rest.
Proof.
  intros Hne.
  unfold DataManager.csv_field. destruct (existsb DataManager.special f) eqn:Hf.
  - cbn [app read]. change (is_newline DataManager.quotechar) with false.
    change (is_quote DataManager.quotechar) with true. cbn iota.
    rewrite <- app_assoc. cbn [app]. rewrite read_quoted. reflexivity.
  - destruct f as [|c f]; [contradiction|].
    cbn [existsb] in Hf. apply orb_false_elim in Hf as [Hc Hf].
    destruct (not_special c Hc) as (Hnl & Hq & Hd).
    cbn [app read]. rewrite Hnl, Hq, Hd, (read_plain _ _ _ _ Hf). reflexivity.
Qed.

Lemma read_fields fields : forall row rest,
  fields <> [] ->
  read StartField [] row
    (DataManager.join_fields fields ++ DataManager.lineterminator ++ rest)
  = (row ++ fields) :: read AtRecordStart [] [] rest.
Proof.
  induction fields as [|f fields IH]; intros row rest Hne; [contradiction|].
  destruct fields as [|g fields].
  - cbn [DataManager.join_fields]. apply read_field_newline.
  - change (DataManager.join_fields (f :: g :: fields))
      with (DataManager.csv_field f
            ++ DataManager.delimiter :: DataManager.join_fields (g :: fields)).
    rewrite <- app_assoc. cbn [app]. rewrite read_field_delimiter.
    rewrite IH by discriminate. now rewrite <- app_assoc.
Qed.

(** One record, written and read back. *)
Lemma read_record fields rest :
  fields <> [] ->
  csv_rows (DataManager.csv_record fields ++ rest) = fields :: csv_rows rest.
Proof.
  intros Hne. unfold csv_rows.
  destruct fields as [|f [|g fields]]; [contradiction| |].
  - destruct f as [|c f]; [reflexivity|].
    change (DataManager.csv_record [c :: f])
      with (DataManager.csv_field (c :: f) ++ DataManager.lineterminator).
    rewrite <- app_assoc. now apply read_first_newline.
  - assert (Hrec : DataManager.csv_record (f :: g :: fields)
                   = DataManager.csv_field f
                     ++ DataManager.delimiter
                     :: DataManager.join_fields (g :: fields)
                     ++ DataManager.lineterminator).
    { unfold DataManager.csv_record.
      change (DataManager.join_fields (f :: g :: fields))
        with (DataManager.csv_field f
              ++ DataManager.delimiter :: DataManager.join_fields (g :: fields)).
      destruct f; now rewrite <- app_assoc. }
    rewrite Hrec, <- app_assoc. cbn [app]. rewrite read_first_delimiter.
    rewrite <- app_assoc. now rewrite read_fields by discriminate.
Qed.

(** The text of a sequence of records reads back as these records. *)
Lemma read_records rows rest :
  Forall (fun fields => fields <> []) rows ->
  csv_rows (log_text rows ++ rest) = rows ++ csv_rows rest.
Proof.
  unfold log_text.
  induction 1 as [|fields rows Hne _ IH]; [reflexivity|].
  cbn [map concat]. now rewrite <- app_assoc, read_record, IH.
Qed.

Lemma rows_text_log_text jobs :
  rows_text jobs = log_text (map (fun job => data_row (snd job)) jobs).
Proof. unfold rows_text, log_text. now rewrite map_map. Qed.

End Reader.

(** * The claims *)

(** ** C1: the three fields of the returned record *)

(** C1, counterexample.  The model answers the summary request with an empty
    string; the transcript passes validation, and the record that
    [analyze_transcript] returns carries the empty summary. *)
Lemma C1_empty_summary_is_returned :
  passes_validation outage_call
  /\ exists d,
       fst (Orchestrator.analyze_transcript empty_summary (analyzer_of empty_summary)
              outage_call empty_world) = Ok d
       /\ d !! "summary"%string = Some [].
Proof.
  split.
  - apply Nat.leb_le. reflexivity.
  - exists (record outage_call [] (py "Frustrated")). split; reflexivity.
Qed.

(** C1, as amended.  For every transcript that passes validation,
    [analyze_transcript] returns a record with the three fields, and its
    transcript is the input, which is not empty.  Field by field: the
    summary is non-empty unless the model itself answered the summary
    request with the empty string, and the sentiment is non-empty unless the
    model answered the sentiment request with the empty string.  In every
    fallback path the field is a non-empty sentinel: a failed inference call
    gives "Error generating summary", respectively "Neutral", and a failed
    workflow gives "Error processing transcript" and "Neutral". *)
Theorem C1_fields_nonempty env self t w :
  passes_validation t ->
  exists d b c,
    fst (Orchestrator.analyze_transcript env self t w) = Ok d
    /\ d !! "transcript"%string = Some t /\ t <> []
    /\ d !! "summary"%string = Some b
    /\ d !! "sentiment"%string = Some c
    /\ (Orchestrator.summary_llm self t <> Reply [] -> b <> [])
    /\ (Orchestrator.sentiment_llm self t <> Reply [] -> c <> [])
    /\ (rt_clean env = false ->
        b = py "Error processing transcript" /\ c = py "Neutral")
    /\ (rt_clean env = true ->
        (forall msg, Orchestrator.summary_llm self t = Failure msg ->
                     b = py "Error generating summary")
        /\ (forall msg, Orchestrator.sentiment_llm self t = Failure msg ->
                        c = py "Neutral")).
Proof.
  intros Hvalid.
  destruct (analyze_transcript_outcome env self t w) as (w' & steps & Hrun & _).
  rewrite Hrun. cbn [fst].
  pose proof (passes_validation_nonempty t Hvalid) as Ht.
  destruct (rt_clean env).
  - exists (record t (summary_of self t) (sentiment_of self t)),
      (summary_of self t), (sentiment_of self t).
    split; [reflexivity|]. split; [reflexivity|]. split; [exact Ht|].
    split; [reflexivity|]. split; [reflexivity|].
    unfold summary_of, sentiment_of.
    split; [|split; [|split; [discriminate|]]].
    + destruct (Orchestrator.summary_llm self t) as [v|msg].
      * intros Hne ->. now apply Hne.
      * discriminate.
    + destruct (Orchestrator.sentiment_llm self t) as [v|msg].
      * intros Hne ->. now apply Hne.
      * discriminate.
    + intros _. split; intros msg ->; reflexivity.
  - exists (Orchestrator.degraded t), (py "Error processing transcript"), (py "Neutral").
    split; [reflexivity|]. split; [reflexivity|]. split; [exact Ht|].
    split; [reflexivity|]. split; [reflexivity|].
    split; [discriminate|]. split; [discriminate|]. split; [now split|discriminate].
Qed.

Lemma C1_fields_nonempty_witness :
  passes_validation outage_call
  /\ Orchestrator.sentiment_llm (analyzer_of empty_summary) outage_call <> Reply []
  /\ exists d c,
       fst (Orchestrator.analyze_transcript empty_summary (analyzer_of empty_summary)
              outage_call empty_world) = Ok d
       /\ d !! "transcript"%string = Some outage_call
       /\ outage_call <> []
       /\ d !! "sentiment"%string = Some c
       /\ c <> [].
Proof.
  assert (Hvalid : passes_validation outage_call) by (apply Nat.leb_le; reflexivity).
  assert (Hsent : Orchestrator.sentiment_llm (analyzer_of empty_summary) outage_call
                  <> Reply []) by discriminate.
  split; [exact Hvalid|]. split; [exact Hsent|].
  destruct (C1_fields_nonempty empty_summary (analyzer_of empty_summary) outage_call
              empty_world Hvalid)
    as (d & b & c & Hrun & Ht & Hne & _ & Hc & _ & Hcne & _).
  exists d, c. repeat split; try assumption. now apply Hcne.
Defined.

(** ** C2: a failed run and the endpoint's answer *)

(** Whatever fails inside the orchestrator's run, the endpoint answers a
    valid request with a success response once the analyzer is built. *)
Lemma endpoint_success_whatever_fails env t w :
  passes_validation t ->
  groq_init env = None ->
  exists r, fst (Routes.analyze_transcript env (Routes.mkRequest t) w) = Ok r
            /\ Routes.success r = true.
Proof.
  intros Hvalid Hinit.
  destruct (endpoint_accepts env t w Hvalid Hinit) as (w2 & _ & Hrun).
  rewrite Hrun. cbn [fst]. eexists. split; [reflexivity|].
  now destruct (rt_clean env).
Qed.

(** Without an API key the constructor of the analyzer raises, and this is
    the one failure the endpoint reports as a 500. *)
Example endpoint_without_api_key :
  fst (Routes.analyze_transcript no_api_key (Routes.mkRequest outage_call) empty_world)
  = Raise (Py.HTTPException 500
             (py "Internal server error: The api_key client option must be set")).
Proof. reflexivity. Qed.

(** C2.  The failing input: the graph runtime raises inside the run, the
    orchestrator's handler returns the degraded record, and the endpoint
    answers with a success response instead of an [HTTPException] 500. *)
Theorem C2_failed_run_is_answered_as_success :
  passes_validation outage_call
  /\ (exists e w', Orchestrator.run_workflow compile_fails (analyzer_of compile_fails)
                     outage_call empty_world = (Raise e, w'))
  /\ fst (Routes.analyze_transcript compile_fails (Routes.mkRequest outage_call)
            empty_world)
     = Ok (Routes.mkResponse outage_call (py "Error processing transcript")
                             (py "Neutral") true).
Proof.
  split; [apply Nat.leb_le; reflexivity|]. split.
  - eexists _, _. reflexivity.
  - reflexivity.
Qed.

(** ** C3: the validation gate of the endpoint *)

(** C3.  The endpoint raises an [HTTPException] 400 exactly when the trimmed
    transcript has fewer than 10 characters.  In that case the request leaves
    nothing behind but its own three trace entries: the analyzer is not
    constructed, [analyze_transcript] is not started, no file is touched.
    With 10 characters or more the endpoint goes on to the orchestrator: it
    constructs the analyzer and, once that is built, starts
    [analyze_transcript]; if the analyzer cannot be built, the constructor's
    error is what the caller gets as a 500. *)
Theorem C3_validation_gate env t w :
  let out := Routes.analyze_transcript env (Routes.mkRequest t) w in
  ((exists detail, fst out = Raise (Py.HTTPException 400 detail))
   <-> (Py.len (Py.strip t) < 10)%nat)
  /\ ((Py.len (Py.strip t) < 10)%nat ->
      snd out = mkWorld (files w) (trace w ++ rejected_events))
  /\ ((10 <= Py.len (Py.strip t))%nat ->
      match groq_init env with
      | Some msg =>
          fst out = Raise (Py.HTTPException 500 (py "Internal server error: " ++ msg))
      | None =>
          exists evs,
            runs (trace (snd out))
            = runs (trace w)
                ++ RunStart "api_analyze_transcript"
                   :: RunStart "call_transcript_workflow" :: evs
      end).
Proof.
  intros out. subst out.
  destruct (Nat.lt_ge_cases (Py.len (Py.strip t)) 10) as [Hshort|Hvalid].
  - rewrite (endpoint_rejects env t w Hshort). cbn [fst snd].
    split; [|split].
    + split; [intros _; exact Hshort|intros _; eexists; reflexivity].
    + reflexivity.
    + intros Hvalid. lia.
  - split; [|split].
    + split; [|intros Hshort; lia].
      intros [detail Hout]. exfalso.
      destruct (groq_init env) as [msg|] eqn:Hinit.
      * rewrite (endpoint_init_fails env t w msg Hvalid Hinit) in Hout. discriminate.
      * destruct (endpoint_accepts env t w Hvalid Hinit) as (w2 & _ & Hrun).
        rewrite Hrun in Hout. discriminate.
    + intros Hshort. lia.
    + intros _. destruct (groq_init env) as [msg|] eqn:Hinit.
      * now rewrite (endpoint_init_fails env t w msg Hvalid Hinit).
      * destruct (endpoint_accepts env t w Hvalid Hinit) as (w2 & Hana & Hrun).
        rewrite Hrun. cbn [snd trace].
        destruct (analyze_transcript_outcome env (analyzer_of env) t
                    (mkWorld (files w) (trace w ++ accepted_events)))
          as (w2' & steps & Hana' & Hruns & _).
        rewrite Hana in Hana'. injection Hana' as <-.
        cbn [trace] in Hruns.
        exists (steps ++ [RunEnd "call_transcript_workflow";
                          RunEnd "api_analyze_transcript"]).
        rewrite runs_app, Hruns, runs_app. unfold accepted_events.
        cbn. rewrite <- !app_assoc. cbn. rewrite <- !app_assoc. reflexivity.
Qed.

Lemma C3_validation_gate_witness :
  let out := Routes.analyze_transcript fair_weather (Routes.mkRequest too_short)
               empty_world in
  (Py.len (Py.strip too_short) < 10)%nat
  /\ (exists detail, fst out = Raise (Py.HTTPException 400 detail))
  /\ snd out = mkWorld ∅ rejected_events.
Proof.
  intros out.
  assert (Hshort : (Py.len (Py.strip too_short) < 10)%nat)
    by (apply Nat.ltb_lt; reflexivity).
  destruct (C3_validation_gate fair_weather too_short empty_world) as (H400 & Hquiet & _).
  split; [exact Hshort|]. split.
  - apply H400, Hshort.
  - apply Hquiet, Hshort.
Defined.

(** ** C4: the top-level handler *)

(** C4.  When the body of [analyze_transcript] (building, compiling and
    running the workflow) raises, [analyze_transcript] returns exactly the
    record of the original transcript, "Error processing transcript" and
    "Neutral".  The handler writes one log line and leaves the files as the
    exception found them, so it persists nothing; and unless the Persist step
    had already started when the exception was raised, the files are those
    from before the call. *)
Theorem C4_top_level_handler env self t w e fs tr :
  Orchestrator.run_workflow env self t
    (mkWorld (files w) (trace w ++ [RunStart "call_transcript_workflow"]))
  = (Raise e, mkWorld fs tr) ->
  Orchestrator.analyze_transcript env self t w
  = (Ok (record t (py "Error processing transcript") (py "Neutral")),
     mkWorld fs (tr ++ [Log ERROR (py "Workflow execution failed: " ++ Py.exn_str e);
                        RunEnd "call_transcript_workflow"]))
  /\ (In (RunStart "node_save_results") (runs tr) \/ fs = files w).
Proof.
  intros Hrun. split; [exact (analyze_transcript_handler env self t w e fs tr Hrun)|].
  destruct (run_workflow_outcome env self t
              (mkWorld (files w) (trace w ++ [RunStart "call_transcript_workflow"])))
    as (w' & steps & Hruns & _ & _ & Hsave & Hcases).
  assert (Hw' : w' = mkWorld fs tr).
  { destruct Hcases as [(_ & Hok & _)|(_ & msg & Hraise)]; congruence. }
  subst w'. cbn [files trace] in *.
  destruct Hsave as [Hin|Hfs]; [left|now right].
  rewrite Hruns. apply in_or_app. now right.
Qed.

Lemma C4_top_level_handler_witness :
  Orchestrator.run_workflow compile_fails (analyzer_of compile_fails) outage_call
    (mkWorld ∅ [RunStart "call_transcript_workflow"])
  = (Raise (Py.Exception (py "graph runtime error")),
     mkWorld ∅ [RunStart "call_transcript_workflow"])
  /\ fst (Orchestrator.analyze_transcript compile_fails (analyzer_of compile_fails)
            outage_call empty_world)
     = Ok (record outage_call (py "Error processing transcript") (py "Neutral")).
Proof.
  assert (Hrun : Orchestrator.run_workflow compile_fails (analyzer_of compile_fails)
                   outage_call
                   (mkWorld (files empty_world)
                            (trace empty_world ++ [RunStart "call_transcript_workflow"]))
                 = (Raise (Py.Exception (py "graph runtime error")),
                    mkWorld ∅ [RunStart "call_transcript_workflow"]))
    by reflexivity.
  split; [exact Hrun|].
  destruct (C4_top_level_handler _ _ _ _ _ _ _ Hrun) as [Hret _].
  now rewrite Hret.
Defined.

(** ** C5: the Summarize step when the inference call fails *)

(** C5.  When the summary inference call raises, the Summarize step returns
    exactly the update with the fixed string "Error generating summary" and
    raises nothing; in a run whose sequencing itself raises nothing, the
    Sentiment and the Persist step are then executed, in this order, and the
    record returned carries the fallback summary. *)
Theorem C5_summary_fallback env self t w msg :
  Orchestrator.summary_llm self t = Failure msg ->
  (forall state w0,
     state !! "transcript"%string = Some t ->
     fst (Orchestrator.summary_node self state w0)
     = Ok {[ "summary"%string := py "Error generating summary" ]})
  /\ (rt_clean env = true ->
      exists w',
        Orchestrator.analyze_transcript env self t w
        = (Ok (record t (py "Error generating summary") (sentiment_of self t)), w')
        /\ runs (trace w')
           = runs (trace w)
               ++ RunStart "call_transcript_workflow" :: three_steps
               ++ [RunEnd "call_transcript_workflow"]).
Proof.
  intros Hfail.
  assert (Hsum : summary_of self t = py "Error generating summary")
    by (unfold summary_of; now rewrite Hfail).
  split.
  - intros state w0 Ht. rewrite (summary_node_spec self state t w0 Ht).
    cbn [fst]. now rewrite Hsum.
  - intros Hclean.
    destruct (analyze_transcript_outcome env self t w)
      as (w' & steps & Hrun & Hruns & _ & Hsteps & _).
    rewrite Hclean, Hsum in Hrun. rewrite (Hsteps Hclean) in Hruns.
    now exists w'.
Qed.

Lemma C5_summary_fallback_witness :
  Orchestrator.summary_llm (analyzer_of summary_down) outage_call
  = Failure (py "Connection error.")
  /\ exists w',
       Orchestrator.analyze_transcript summary_down (analyzer_of summary_down)
         outage_call empty_world
       = (Ok (record outage_call (py "Error generating summary") (py "Frustrated")), w')
       /\ runs (trace w')
          = RunStart "call_transcript_workflow" :: three_steps
              ++ [RunEnd "call_transcript_workflow"].
Proof.
  split; [reflexivity|].
  exact (proj2 (C5_summary_fallback summary_down (analyzer_of summary_down)
                  outage_call empty_world (py "Connection error.") eq_refl) eq_refl).
Defined.

(** ** C6: the Sentiment step when the inference call fails *)

(** C6.  When only the sentiment inference call raises, the Sentiment step
    returns exactly the update with the fixed label "Neutral"; merging that
    update leaves the summary of the state as it was; and the record of a
    run whose sequencing raises nothing carries the summary the model gave. *)
Theorem C6_sentiment_fallback_keeps_summary env self t w value msg :
  Orchestrator.summary_llm self t = Reply value ->
  Orchestrator.sentiment_llm self t = Failure msg ->
  (forall state w0,
     state !! "transcript"%string = Some t ->
     fst (Orchestrator.sentiment_node self state w0)
     = Ok {[ "sentiment"%string := py "Neutral" ]}
     /\ LangGraph.apply_updates state [ {[ "sentiment"%string := py "Neutral" ]} ]
          !! "summary"%string
        = state !! "summary"%string)
  /\ (rt_clean env = true ->
      fst (Orchestrator.analyze_transcript env self t w)
      = Ok (record t value (py "Neutral"))).
Proof.
  intros Hsum Hfail.
  assert (Hsent : sentiment_of self t = py "Neutral")
    by (unfold sentiment_of; now rewrite Hfail).
  assert (Hval : summary_of self t = value)
    by (unfold summary_of; now rewrite Hsum).
  split.
  - intros state w0 Ht. split.
    + rewrite (sentiment_node_spec self state t w0 Ht). cbn [fst]. now rewrite Hsent.
    + cbn [LangGraph.apply_updates foldl].
      rewrite <- insert_union_singleton_l. now rewrite lookup_insert_ne.
  - intros Hclean.
    destruct (analyze_transcript_outcome env self t w) as (w' & steps & Hrun & _).
    rewrite Hrun, Hclean, Hsent, Hval. reflexivity.
Qed.

Lemma C6_sentiment_fallback_keeps_summary_witness :
  Orchestrator.summary_llm (analyzer_of sentiment_down) outage_call
  = Reply (py "Customer reports an outage.")
  /\ Orchestrator.sentiment_llm (analyzer_of sentiment_down) outage_call
     = Failure (py "Connection error.")
  /\ fst (Orchestrator.analyze_transcript sentiment_down (analyzer_of sentiment_down)
            outage_call empty_world)
     = Ok (record outage_call (py "Customer reports an outage.") (py "Neutral")).
Proof.
  split; [reflexivity|]. split; [reflexivity|].
  exact (proj2 (C6_sentiment_fallback_keeps_summary sentiment_down
                  (analyzer_of sentiment_down) outage_call empty_world
                  (py "Customer reports an outage.") (py "Connection error.")
                  eq_refl eq_refl) eq_refl).
Defined.

(** ** C7: the log file after a sequence of saves *)

Section Log.
Variable path : string.

Local Abbreviation manager := (DataManager.init path).

Lemma save_to_csv_true env data w w' :
  DataManager.save_to_csv env manager data w = (Ok true, w') ->
  files w' !! path = Some (appended (files w !! path) (data_row data)).
Proof.
  intros Hsave.
  destruct (save_to_csv_spec env path data w) as (w1 & Hspec & _ & _ & Hfiles).
  rewrite Hsave in Hspec. injection Hspec as Hb <-.
  rewrite Hfiles by (now destruct (io_fails env _)).
  apply lookup_insert_eq.
Qed.

(** Once the file exists, successful saves only append rows. *)
Lemma save_all_existing jobs : forall w old results w',
  files w !! path = Some old ->
  save_all manager jobs w = (results, w') ->
  Forall (fun r => r = Ok true) results ->
  files w' !! path = Some (old ++ rows_text jobs).
Proof.
  induction jobs as [|[env data] jobs IH]; intros w old results w' Hold Hall Hok.
  - cbn in Hall. injection Hall as <- <-. unfold rows_text. cbn.
    now rewrite app_nil_r.
  - cbn [save_all] in Hall.
    destruct (DataManager.save_to_csv env manager data w) as [r w1] eqn:Hsave.
    destruct (save_all manager jobs w1) as [rs w2] eqn:Hrest.
    injection Hall as <- <-.
    apply Forall_cons in Hok as [-> Hok].
    pose proof (save_to_csv_true _ _ _ _ Hsave) as Hw1.
    rewrite Hold in Hw1. unfold appended, log_before in Hw1.
    rewrite (IH _ _ _ _ Hw1 Hrest Hok).
    unfold rows_text. cbn [map concat snd]. now rewrite <- app_assoc.
Qed.
End Log.

(** C7.  The header row is the text "Transcript,Summary,Sentiment".  Saving
    one or more records one after the other, each save succeeding, into a log
    file that does not exist yet leaves a file made of that header row
    followed by one row per record, in order; read back, the file is the
    header row and then, for each record, the row of its transcript, its
    summary and its sentiment, in this order.  A successful save into a file
    that exists appends the record's row and nothing else. *)
Theorem C7_one_header_then_rows path :
  DataManager.csv_record header_row
  = py "Transcript,Summary,Sentiment" ++ DataManager.lineterminator
  /\ (forall job jobs w results w',
        files w !! path = None ->
        save_all (DataManager.init path) (job :: jobs) w = (results, w') ->
        Forall (fun r => r = Ok true) results ->
        exists contents,
          files w' !! path = Some contents
          /\ contents = DataManager.csv_record header_row ++ rows_text (job :: jobs)
          /\ csv_rows contents
             = header_row :: map (fun j => data_row (snd j)) (job :: jobs))
  /\ (forall env data w old w',
        files w !! path = Some old ->
        DataManager.save_to_csv env (DataManager.init path) data w = (Ok true, w') ->
        files w' !! path = Some (old ++ DataManager.csv_record (data_row data))).
Proof.
  split; [reflexivity|]. split.
  - intros [env data] jobs w results w' Hnone Hall Hok.
    cbn [save_all] in Hall.
    destruct (DataManager.save_to_csv env (DataManager.init path) data w)
      as [r w1] eqn:Hsave.
    destruct (save_all (DataManager.init path) jobs w1) as [rs w2] eqn:Hrest.
    injection Hall as <- <-.
    apply Forall_cons in Hok as [-> Hok].
    pose proof (save_to_csv_true _ _ _ _ _ Hsave) as Hw1.
    rewrite Hnone in Hw1. unfold appended, log_before in Hw1.
    eexists. split; [exact (save_all_existing path jobs _ _ _ _ Hw1 Hrest Hok)|].
    split.
    + unfold rows_text. cbn [map concat snd]. now rewrite <- app_assoc.
    + rewrite <- app_assoc.
      change (DataManager.csv_record (data_row data) ++ rows_text jobs)
        with (rows_text ((env, data) :: jobs)).
      rewrite rows_text_log_text.
      change (DataManager.csv_record header_row
              ++ log_text (map (fun job => data_row (snd job)) ((env, data) :: jobs)))
        with (log_text (header_row
                        :: map (fun job => data_row (snd job)) ((env, data) :: jobs))).
      rewrite <- (app_nil_r (log_text _)), read_records; [apply app_nil_r|].
      constructor; [discriminate|].
      apply Forall_forall. intros fields [job [-> _]]%list_elem_of_fmap. discriminate.
  - intros env data w old w' Hold Hsave.
    rewrite (save_to_csv_true _ _ _ _ _ Hsave), Hold. reflexivity.
Qed.

Lemma C7_one_header_then_rows_witness :
  files empty_world !! csv_path = None
  /\ Forall (fun r => r = Ok true) (fst (save_all DataManager.default two_jobs empty_world))
  /\ exists contents,
       files (snd (save_all DataManager.default two_jobs empty_world)) !! csv_path
       = Some contents
       /\ contents = DataManager.csv_record header_row ++ rows_text two_jobs
       /\ csv_rows contents
          = [ header_row;
              [outage_call; py "Outage, two days."; py "Frustrated"];
              [py "Thanks, all good now."; py "Resolved."; py "Happy"] ].
Proof.
  assert (Hok : Forall (fun r => r = Ok true)
                  (fst (save_all DataManager.default two_jobs empty_world)))
    by (repeat constructor).
  split; [reflexivity|]. split; [exact Hok|].
  exact (proj1 (proj2 (C7_one_header_then_rows csv_path))
           _ _ empty_world _ _ eq_refl (surjective_pairing _) Hok).
Defined.

(** ** C8: a failing save *)

(** C8.  [save_to_csv] always returns and never raises; when a file
    operation of the call fails, it returns [False].  Whatever the file
    operations do, the record returned by a run whose sequencing raises
    nothing holds the summary and the sentiment the two inference steps
    produced. *)
Theorem C8_persistence_failure_is_not_fatal env self t w :
  (forall manager data w0,
     exists b w1, DataManager.save_to_csv env manager data w0 = (Ok b, w1))
  /\ (forall path data w0,
        io_fails env (bool_decide (is_Some (files w0 !! path))) = true ->
        fst (DataManager.save_to_csv env (DataManager.init path) data w0) = Ok false)
  /\ (rt_clean env = true ->
      fst (Orchestrator.analyze_transcript env self t w)
      = Ok (record t (summary_of self t) (sentiment_of self t))).
Proof.
  split; [|split].
  - intros manager data w0. apply save_to_csv_returns.
  - intros path data w0 Hfails.
    destruct (save_to_csv_spec env path data w0) as (w1 & Hspec & _).
    now rewrite Hspec, Hfails.
  - intros Hclean.
    destruct (analyze_transcript_outcome env self t w) as (w' & steps & Hrun & _).
    now rewrite Hrun, Hclean.
Qed.

Lemma C8_persistence_failure_is_not_fatal_witness :
  io_fails read_only_disk (bool_decide (is_Some (files empty_world !! csv_path))) = true
  /\ fst (DataManager.save_to_csv read_only_disk DataManager.default
            (record outage_call (py "Customer reports an outage.") (py "Frustrated"))
            empty_world) = Ok false
  /\ fst (Orchestrator.analyze_transcript read_only_disk (analyzer_of read_only_disk)
            outage_call empty_world)
     = Ok (record outage_call (py "Customer reports an outage.") (py "Frustrated")).
Proof.
  destruct (C8_persistence_failure_is_not_fatal read_only_disk
              (analyzer_of read_only_disk) outage_call empty_world)
    as (_ & Hfalse & Hrecord).
  split; [reflexivity|]. split.
  - exact (Hfalse csv_path _ empty_world eq_refl).
  - exact (Hrecord eq_refl).
Defined.

(** ** C9: the order of the steps *)

(** C9.  In every call of [analyze_transcript] the steps that run are an
    initial part of Summarize, Sentiment, Persist, each one started only
    after the one before it has ended; and in every call whose sequencing
    raises nothing, all three run, whatever the inference calls and the file
    operations do. *)
Theorem C9_steps_in_order env self t w :
  exists steps,
    runs (trace (snd (Orchestrator.analyze_transcript env self t w)))
    = runs (trace w)
        ++ RunStart "call_transcript_workflow" :: steps
        ++ [RunEnd "call_transcript_workflow"]
    /\ steps `prefix_of` three_steps
    /\ (rt_clean env = true -> steps = three_steps).
Proof.
  destruct (analyze_transcript_outcome env self t w)
    as (w' & steps & Hrun & Hruns & Hpre & Hsteps & _).
  exists steps. rewrite Hrun. cbn [snd]. auto.
Qed.

Lemma C9_steps_in_order_witness :
  rt_clean groq_down = true
  /\ runs (trace (snd (Orchestrator.analyze_transcript groq_down (analyzer_of groq_down)
                         outage_call empty_world)))
     = RunStart "call_transcript_workflow" :: three_steps
         ++ [RunEnd "call_transcript_workflow"].
Proof.
  split; [reflexivity|].
  destruct (C9_steps_in_order groq_down (analyzer_of groq_down) outage_call empty_world)
    as (steps & Hruns & _ & Hall).
  rewrite Hruns, (Hall eq_refl). reflexivity.
Defined.

(** ** C10: the transcript is kept verbatim *)

(** C10.  For a transcript that passes validation, once the analyzer is
    built, the endpoint answers with a response whose transcript is the
    input as it came, not trimmed, on the normal path and on the degraded
    path alike; so does the record of [analyze_transcript].  When the
    sequencing raises nothing and the save succeeds, the row appended to the
    log file has the same untrimmed input as its first column: if the log so
    far (for a missing file, the header) is the text of some rows, the file
    read back is these rows followed by the row of the input, the summary
    and the sentiment. *)
Theorem C10_transcript_verbatim env t w :
  passes_validation t ->
  groq_init env = None ->
  (forall self w0, exists d,
      fst (Orchestrator.analyze_transcript env self t w0) = Ok d
      /\ d !! "transcript"%string = Some t)
  /\ exists r w',
       Routes.analyze_transcript env (Routes.mkRequest t) w = (Ok r, w')
       /\ Routes.transcript r = t
       /\ (rt_clean env = true ->
           io_fails env (bool_decide (is_Some (files w !! csv_path))) = false ->
           exists contents,
             files w' !! csv_path = Some contents
             /\ contents = appended (files w !! csv_path)
                             [t; Routes.summary r; Routes.sentiment r]
             /\ forall rows,
                  Forall (fun fields => fields <> []) rows ->
                  log_before (files w !! csv_path) = log_text rows ->
                  csv_rows contents
                  = rows ++ [[t; Routes.summary r; Routes.sentiment r]]).
Proof.
  intros Hvalid Hinit. split.
  - intros self w0.
    destruct (analyze_transcript_outcome env self t w0) as (w' & steps & Hrun & _).
    rewrite Hrun. cbn [fst]. eexists. split; [reflexivity|].
    now destruct (rt_clean env).
  - destruct (endpoint_accepts env t w Hvalid Hinit) as (w2 & Hana & Hrun).
    destruct (analyze_transcript_outcome env (analyzer_of env) t
                (mkWorld (files w) (trace w ++ accepted_events)))
      as (w2' & steps & Hana' & _ & _ & _ & _ & _ & Hfiles).
    rewrite Hana in Hana'. injection Hana' as <-. cbn [files] in Hfiles.
    eexists _, _. split; [exact Hrun|]. split.
    + now destruct (rt_clean env).
    + intros Hclean Hio. cbn [files]. rewrite (Hfiles Hclean Hio), Hclean.
      eexists. split; [apply lookup_insert_eq|]. split; [reflexivity|].
      intros rows Hrows Hold. cbn [Routes.summary Routes.sentiment].
      unfold appended. rewrite Hold, read_records by exact Hrows.
      rewrite <- (app_nil_r (DataManager.csv_record _)).
      now rewrite read_record by discriminate.
Qed.

Lemma C10_transcript_verbatim_witness :
  passes_validation outage_call
  /\ Py.strip outage_call <> outage_call
  /\ exists r w' contents,
       Routes.analyze_transcript fair_weather (Routes.mkRequest outage_call) empty_world
       = (Ok r, w')
       /\ Routes.transcript r = outage_call
       /\ files w' !! csv_path = Some contents
       /\ csv_rows contents
          = [header_row; [outage_call; Routes.summary r; Routes.sentiment r]].
Proof.
  assert (Hvalid : passes_validation outage_call) by (apply Nat.leb_le; reflexivity).
  split; [exact Hvalid|]. split; [discriminate|].
  destruct (C10_transcript_verbatim fair_weather outage_call empty_world Hvalid eq_refl)
    as (_ & r & w' & Hrun & Ht & Hrow).
  destruct (Hrow eq_refl eq_refl) as (contents & Hfile & _ & Hread).
  exists r, w', contents. split; [exact Hrun|]. split; [exact Ht|].
  split; [exact Hfile|].
  apply (Hread [header_row]).
  - repeat constructor. discriminate.
  - unfold log_text. cbn [map concat]. now rewrite app_nil_r.
Defined.

(** * Further properties of the code *)

(** ** Whitespace and the validation of the endpoint *)

Lemma lstrip_blank ws t : blank ws = true -> Py.lstrip (ws ++ t) = Py.lstrip t.
Proof.
  unfold blank. induction ws as [|c ws IH]; intros H; [reflexivity|].
  cbn [forallb] in H. apply andb_prop in H as [Hc H].
  cbn [app Py.lstrip]. rewrite Hc. now apply IH.
Qed.

Lemma lstrip_nil_blank t : Py.lstrip t = [] -> blank t = true.
Proof.
  unfold blank. induction t as [|c t IH]; [reflexivity|].
  cbn [Py.lstrip forallb]. destruct (Py.isspace c); [exact IH|discriminate].
Qed.

Lemma blank_lstrip_nil t : blank t = true -> Py.lstrip t = [].
Proof. intros H. rewrite <- (app_nil_r t). now rewrite lstrip_blank. Qed.

Lemma lstrip_app t s : Py.lstrip t <> [] -> Py.lstrip (t ++ s) = Py.lstrip t ++ s.
Proof.
  induction t as [|c t IH]; [intros H; now contradiction H|].
  cbn [app Py.lstrip]. destruct (Py.isspace c); [exact IH|reflexivity].
Qed.

Lemma blank_rev ws : blank (rev ws) = blank ws.
Proof.
  unfold blank. induction ws as [|c ws IH]; [reflexivity|].
  cbn [rev forallb]. rewrite forallb_app, IH. cbn. rewrite andb_true_r.
  apply andb_comm.
Qed.

Lemma rstrip_blank t ws : blank ws = true -> Py.rstrip (t ++ ws) = Py.rstrip t.
Proof.
  intros H. unfold Py.rstrip. rewrite rev_app_distr, lstrip_blank; [reflexivity|].
  now rewrite blank_rev.
Qed.

Lemma blank_app a b : blank (a ++ b) = blank a && blank b.
Proof. apply forallb_app. Qed.

(** Whitespace around a transcript does not count: [strip] sees through it. *)
Lemma strip_padding ws1 t ws2 :
  blank ws1 = true -> blank ws2 = true ->
  Py.strip (ws1 ++ t ++ ws2) = Py.strip t.
Proof.
  intros H1 H2. unfold Py.strip. rewrite (lstrip_blank _ _ H1).
  destruct (Py.lstrip t) as [|c s] eqn:Ht.
  - rewrite blank_lstrip_nil; [reflexivity|].
    rewrite blank_app, H2, (lstrip_nil_blank _ Ht). reflexivity.
  - rewrite lstrip_app by (rewrite Ht; discriminate).
    rewrite Ht. now apply rstrip_blank.
Qed.

Lemma strip_blank t : blank t = true -> Py.strip t = [].
Proof. intros H. unfold Py.strip. now rewrite (blank_lstrip_nil _ H). Qed.

Lemma lstrip_head c s t : Py.lstrip t = c :: s -> Py.isspace c = false.
Proof.
  induction t as [|d t IH]; [discriminate|].
  cbn [Py.lstrip]. destruct (Py.isspace d) eqn:Hd; [exact IH|].
  now intros [= -> _].
Qed.

Lemma strip_nil_blank t : Py.strip t = [] -> blank t = true.
Proof.
  unfold Py.strip, Py.rstrip. intros H.
  apply (f_equal (@rev N)) in H. rewrite rev_involutive in H. cbn in H.
  apply lstrip_nil_blank in H. rewrite blank_rev in H.
  destruct (Py.lstrip t) as [|c s] eqn:Ht; [now apply lstrip_nil_blank|].
  apply lstrip_head in Ht. cbn in H. now rewrite Ht in H.
Qed.

(** The two rejections of the endpoint: a transcript of whitespace only, of
    whatever length, is answered "Transcript cannot be empty"; any other
    transcript with fewer than 10 characters after trimming is answered
    "Transcript too short for meaningful analysis".  Either way the status is
    400 and nothing but the request's three trace entries is left behind. *)
Theorem rejection_messages env t w :
  (Py.len (Py.strip t) < 10)%nat ->
  Routes.analyze_transcript env (Routes.mkRequest t) w
  = (Raise (Py.HTTPException 400
              (if blank t
               then py "Transcript cannot be empty"
               else py "Transcript too short for meaningful analysis")),
     mkWorld (files w) (trace w ++ rejected_events)).
Proof.
  intros Hshort. rewrite (endpoint_rejects env t w Hshort).
  destruct (blank t) eqn:Hb.
  - now rewrite (strip_blank t Hb).
  - destruct (Py.strip t) eqn:Hs; [|reflexivity].
    apply strip_nil_blank in Hs. congruence.
Qed.

Lemma rejection_messages_witness :
  (Py.len (Py.strip (py "          	    ")) < 10)%nat
  /\ fst (Routes.analyze_transcript fair_weather
            (Routes.mkRequest (py "          	    ")) empty_world)
     = Raise (Py.HTTPException 400 (py "Transcript cannot be empty"))
  /\ fst (Routes.analyze_transcript fair_weather (Routes.mkRequest too_short) empty_world)
     = Raise (Py.HTTPException 400 (py "Transcript too short for meaningful analysis")).
Proof.
  assert (H1 : (Py.len (Py.strip (py "          	    ")) < 10)%nat)
    by (apply Nat.ltb_lt; reflexivity).
  assert (H2 : (Py.len (Py.strip too_short) < 10)%nat)
    by (apply Nat.ltb_lt; reflexivity).
  split; [exact H1|]. split.
  - now rewrite (rejection_messages fair_weather _ empty_world H1).
  - now rewrite (rejection_messages fair_weather _ empty_world H2).
Defined.

(** Padding a transcript with whitespace, in front or behind, changes neither
    whether the endpoint accepts it nor, when it is rejected, the answer. *)
Theorem validation_ignores_padding ws1 t ws2 :
  blank ws1 = true -> blank ws2 = true ->
  (passes_validation (ws1 ++ t ++ ws2) <-> passes_validation t)
  /\ forall env w w',
       (Py.len (Py.strip t) < 10)%nat ->
       fst (Routes.analyze_transcript env (Routes.mkRequest (ws1 ++ t ++ ws2)) w)
       = fst (Routes.analyze_transcript env (Routes.mkRequest t) w').
Proof.
  intros H1 H2. pose proof (strip_padding ws1 t ws2 H1 H2) as Hs. split.
  - unfold passes_validation. now rewrite Hs.
  - intros env w w' Hshort.
    rewrite !endpoint_rejects by (now rewrite ?Hs). now rewrite Hs.
Qed.

Lemma validation_ignores_padding_witness :
  blank (py "   ") = true
  /\ (passes_validation (py "   " ++ py "hello" ++ py "   ")
      <-> passes_validation (py "hello"))
  /\ ~ passes_validation (py "   " ++ py "hello" ++ py "   ").
Proof.
  split; [reflexivity|].
  destruct (validation_ignores_padding (py "   ") (py "hello") (py "   ")
              eq_refl eq_refl) as [Hiff _].
  split; [exact Hiff|].
  intros H. apply Hiff in H. apply Nat.leb_le in H. discriminate H.
Defined.

(** ** What every run keeps *)

(** A relation between the worlds before and after that holds across trace
    entries and across [save_to_csv] holds across every computation of the
    program; it holds across [save_to_csv] when it holds across the creation
    of the log file and across writes to its end. *)
Section Keeps.
Variable R : World -> World -> Prop.
Hypothesis R_refl : forall w, R w w.
Hypothesis R_trans : forall a b c, R a b -> R b c -> R a c.
Hypothesis R_emit : forall w ev, R w (mkWorld (files w) (trace w ++ [ev])).

Lemma keeps_ret {A} (a : A) : keeps R (ret a).
Proof. intros w. apply R_refl. Qed.

Lemma keeps_raise {A} e : keeps R (@raise A e).
Proof. intros w. apply R_refl. Qed.

Lemma keeps_bind {A B} (m : M A) (k : A -> M B) :
  keeps R m -> (forall a, keeps R (k a)) -> keeps R (bind m k).
Proof.
  intros Hm Hk w. unfold bind. specialize (Hm w).
  destruct (m w) as [[a|e] w1]; cbn [snd] in *; [|exact Hm].
  eapply R_trans; [exact Hm|apply Hk].
Qed.

Lemma keeps_bind_ensures {A B} (P : A -> Prop) (m : M A) (k : A -> M B) :
  keeps R m ->
  (forall w a w', m w = (Ok a, w') -> P a) ->
  (forall a, P a -> keeps R (k a)) ->
  keeps R (bind m k).
Proof.
  intros Hm HP Hk w. unfold bind. specialize (Hm w). specialize (HP w).
  destruct (m w) as [[a|e] w1]; cbn [snd] in *; [|exact Hm].
  eapply R_trans; [exact Hm|]. apply Hk. now apply (HP a w1).
Qed.

Lemma keeps_try_except {A} (m : M A) h :
  keeps R m -> (forall e, keeps R (h e)) -> keeps R (try_except m h).
Proof.
  intros Hm Hh w. unfold try_except. specialize (Hm w).
  destruct (m w) as [[a|e] w1]; cbn [snd] in *; [exact Hm|].
  eapply R_trans; [exact Hm|apply Hh].
Qed.

Lemma keeps_emit ev : keeps R (emit ev).
Proof. intros w. apply R_emit. Qed.

Lemma keeps_traceable {A} name (m : M A) : keeps R m -> keeps R (traceable name m).
Proof.
  intros Hm. unfold traceable. apply keeps_bind; [apply keeps_emit|].
  intros _ w. specialize (Hm w).
  destruct (m w) as [[a|e] w1]; cbn [snd] in *;
    (eapply R_trans; [exact Hm|]);
    apply (keeps_bind (emit _)); auto using keeps_emit, keeps_ret, keeps_raise.
Qed.

Lemma keeps_getitem d key : keeps R (getitem d key).
Proof. unfold getitem. destruct (d !! key); [apply keeps_ret|apply keeps_raise]. Qed.

Ltac keeps_step :=
  first
    [ apply keeps_traceable
    | apply keeps_try_except; [|intros ?]
    | apply keeps_ret | apply keeps_raise | apply keeps_emit | apply keeps_getitem
    | apply keeps_bind; [|intros ?]
    | match goal with
      | |- keeps R (if ?b then _ else _) => destruct b
      | |- keeps R (match ?x with _ => _ end) => destruct x
      end ].

(** *** Across a save *)
Section Saves.
Hypothesis R_create :
  forall w, files w !! csv_path = None ->
            R w (mkWorld (<[csv_path := []]> (files w)) (trace w)).
Hypothesis R_write :
  forall w data,
    R w (mkWorld (<[csv_path := dict_get (files w) csv_path [] ++ data]> (files w))
                 (trace w)).
Variable env : Env.

Lemma keeps_io_raise op : keeps R (DataManager.io_raise env op).
Proof. unfold DataManager.io_raise. repeat keeps_step. Qed.

Lemma keeps_open_append : keeps R (DataManager.open_append env csv_path).
Proof.
  unfold DataManager.open_append. apply keeps_bind; [apply keeps_io_raise|].
  intros _ w. cbn [snd]. destruct (files w !! csv_path) eqn:E;
    [apply R_refl|now apply R_create].
Qed.

Lemma keeps_fwrite op data : keeps R (DataManager.fwrite env op csv_path data).
Proof.
  unfold DataManager.fwrite. apply keeps_bind; [apply keeps_io_raise|].
  intros _ w. apply R_write.
Qed.

Lemma keeps_with_open {A} (body : M A) :
  keeps R body -> keeps R (DataManager.with_open env csv_path body).
Proof.
  intros Hbody. unfold DataManager.with_open.
  apply keeps_bind; [apply keeps_open_append|].
  intros _ w. specialize (Hbody w).
  destruct (body w) as [[a|e] w1]; cbn [snd] in *;
    (eapply R_trans; [exact Hbody|]);
    (apply (keeps_bind (DataManager.fclose env));
     [apply keeps_io_raise|intros _; first [apply keeps_ret|apply keeps_raise]]).
Qed.

Lemma keeps_writerow op rowdict :
  keeps R (DataManager.writerow env op DataManager.default rowdict).
Proof.
  unfold DataManager.writerow, DataManager.dict_to_list.
  apply keeps_bind; [repeat keeps_step|]. intros fields. apply keeps_fwrite.
Qed.

Lemma keeps_save_to_csv data :
  keeps R (DataManager.save_to_csv env DataManager.default data).
Proof.
  unfold DataManager.save_to_csv, DataManager.isfile, logger_info, logger_error.
  apply keeps_try_except; [|intros e; repeat keeps_step].
  apply keeps_bind; [intros w; apply R_refl|]. intros file_exists.
  apply keeps_bind; [|intros _; apply keeps_ret].
  apply keeps_with_open.
  apply keeps_bind; [|intros _].
  - destruct (negb file_exists); [|apply keeps_ret].
    apply keeps_bind; [apply keeps_writerow|intros _; apply keeps_emit].
  - apply keeps_bind; [apply keeps_writerow|intros _; apply keeps_emit].
Qed.

End Saves.

(** *** Across a request *)
Section Pipeline.
Variable env : Env.
Hypothesis keeps_save :
  forall data, keeps R (DataManager.save_to_csv env DataManager.default data).

Lemma keeps_chain_invoke llm t : keeps R (Orchestrator.chain_invoke llm t).
Proof. unfold Orchestrator.chain_invoke. repeat keeps_step. Qed.

Lemma keeps_summary_node self state :
  keeps R (Orchestrator.summary_node self state).
Proof.
  unfold Orchestrator.summary_node, logger_info, logger_error.
  repeat first [apply keeps_chain_invoke | keeps_step].
Qed.

Lemma keeps_sentiment_node self state :
  keeps R (Orchestrator.sentiment_node self state).
Proof.
  unfold Orchestrator.sentiment_node, logger_info, logger_error.
  repeat first [apply keeps_chain_invoke | keeps_step].
Qed.

Lemma keeps_save_node self state :
  keeps R (Orchestrator.save_node env self state).
Proof.
  unfold Orchestrator.save_node, logger_info, logger_error.
  repeat first [apply keeps_save | keeps_step].
Qed.

Lemma keeps_rt_raise p : keeps R (LangGraph.rt_raise env p).
Proof. unfold LangGraph.rt_raise. repeat keeps_step. Qed.

(** The runtime keeps what the nodes of the graph keep. *)
Lemma keeps_run_nodes g active snapshot :
  Forall (fun entry => forall state, keeps R (snd entry state)) (LangGraph.nodes g) ->
  keeps R (LangGraph.run_nodes g active snapshot).
Proof.
  intros Hnodes. induction active as [|name rest IH]; [apply keeps_ret|].
  cbn [LangGraph.run_nodes].
  destruct (LangGraph.lookup_node (LangGraph.nodes g) name) as [action|] eqn:E;
    [|exact IH].
  assert (Haction : forall state, keeps R (action state)).
  { clear -Hnodes E. induction Hnodes as [|[n a] ns Ha _ IHn]; [discriminate|].
    cbn [LangGraph.lookup_node] in E. destruct (String.eqb n name).
    - injection E as <-. exact Ha.
    - now apply IHn. }
  apply keeps_bind; [apply Haction|]. intros update.
  apply keeps_bind; [exact IH|]. intros updates. apply keeps_ret.
Qed.

Lemma keeps_supersteps g fuel : forall step active state,
  Forall (fun entry => forall state, keeps R (snd entry state)) (LangGraph.nodes g) ->
  keeps R (LangGraph.supersteps env fuel step g active state).
Proof.
  induction fuel as [|fuel IH]; intros step active state Hnodes;
    cbn [LangGraph.supersteps]; destruct (LangGraph.live active) as [|n todo].
  - apply keeps_bind; [apply keeps_rt_raise|intros _; apply keeps_ret].
  - apply keeps_raise.
  - apply keeps_bind; [apply keeps_rt_raise|intros _; apply keeps_ret].
  - apply keeps_bind; [apply keeps_rt_raise|intros _].
    apply keeps_bind; [now apply keeps_run_nodes|intros updates].
    now apply IH.
Qed.

Lemma compile_returns_graph g w g' w' :
  LangGraph.compile env g w = (Ok g', w') -> g' = g.
Proof.
  unfold LangGraph.compile, bind, LangGraph.rt_raise.
  destruct (langgraph_fault env AtCompile); [discriminate|].
  cbn. destruct (LangGraph.valid g); [|discriminate]. now intros [= <- _].
Qed.

Lemma keeps_compile g : keeps R (LangGraph.compile env g).
Proof.
  unfold LangGraph.compile.
  apply keeps_bind; [apply keeps_rt_raise|intros _; repeat keeps_step].
Qed.

Lemma keeps_run_workflow self t : keeps R (Orchestrator.run_workflow env self t).
Proof.
  unfold Orchestrator.run_workflow, LangGraph.invoke, logger_info.
  apply (keeps_bind_ensures (fun g => g = Orchestrator.workflow_graph env self));
    [apply keeps_compile|intros w g w'; apply compile_returns_graph|].
  intros workflow ->.
  apply keeps_bind; [apply keeps_emit|intros _].
  apply keeps_bind; [|intros final_state; repeat keeps_step].
  apply keeps_supersteps.
  repeat constructor; cbn [snd]; intros state;
    [apply keeps_summary_node|apply keeps_sentiment_node|apply keeps_save_node].
Qed.

Lemma keeps_analyze_transcript self t :
  keeps R (Orchestrator.analyze_transcript env self t).
Proof.
  unfold Orchestrator.analyze_transcript, logger_error.
  apply keeps_traceable, keeps_try_except; [apply keeps_run_workflow|].
  intros e. repeat keeps_step.
Qed.

Lemma keeps_init : keeps R (Orchestrator.init env).
Proof. unfold Orchestrator.init, logger_info. repeat keeps_step. Qed.

(** The endpoint keeps the relation, for every request. *)
Lemma keeps_endpoint request : keeps R (Routes.analyze_transcript env request).
Proof.
  unfold Routes.analyze_transcript, Routes.handle, logger_info, logger_error.
  apply keeps_traceable, keeps_try_except; [|intros e; repeat keeps_step].
  repeat first [apply keeps_init | apply keeps_analyze_transcript | keeps_step].
Qed.

End Pipeline.
End Keeps.

(** ** [save_to_csv] *)

(** [save_to_csv] returns [True] exactly when none of the file operations the
    call goes through fails: opening, writing the header (for a missing file
    only), writing the row, closing. *)
Theorem save_to_csv_true_iff env path data w :
  fst (DataManager.save_to_csv env (DataManager.init path) data w) = Ok true
  <-> forall op, In op (io_plan (bool_decide (is_Some (files w !! path)))) ->
                 io_fault env op = None.
Proof.
  destruct (save_to_csv_spec env path data w) as (w' & Hspec & _).
  rewrite Hspec. cbn [fst]. unfold io_fails.
  set (plan := io_plan _). clearbody plan. split.
  - intros [= H] op Hin. apply negb_true_iff in H.
    destruct (io_fault env op) eqn:E; [|reflexivity]. exfalso.
    assert (Hex : existsb (fun op => bool_decide (io_fault env op <> None)) plan = true).
    { apply existsb_exists. exists op. split; [exact Hin|].
      apply bool_decide_eq_true. congruence. }
    congruence.
  - intros Hall. f_equal. apply negb_true_iff.
    destruct (existsb _ plan) eqn:Hex; [|reflexivity]. exfalso.
    apply existsb_exists in Hex as (op & Hin & Hop).
    apply bool_decide_eq_true in Hop. now apply Hop, Hall.
Qed.

(** When the log file cannot be opened, [save_to_csv] returns [False], writes
    the one error line to the log of the program and changes nothing on disk:
    the file is neither created nor touched.  This holds for every manager. *)
Lemma save_to_csv_open_fails env manager data w msg :
  io_fault env IoOpen = Some msg ->
  DataManager.save_to_csv env manager data w
  = (Ok false,
     mkWorld (files w) (trace w ++ [Log ERROR (py "Error saving to CSV: " ++ msg)])).
Proof.
  intros Hopen.
  unfold DataManager.save_to_csv, DataManager.with_open, DataManager.open_append,
    DataManager.io_raise, DataManager.isfile.
  py_unfold. rewrite Hopen. reflexivity.
Qed.

(** [save_to_csv] looks at the keys "transcript", "summary" and "sentiment"
    of its argument and at nothing else: a missing key counts as the empty
    string and any other key is ignored, so two dictionaries with the same
    row are saved in the same way. *)
Theorem save_to_csv_three_keys env manager data data' w :
  data_row data = data_row data' ->
  DataManager.save_to_csv env manager data w
  = DataManager.save_to_csv env manager data' w.
Proof.
  unfold data_row. intros [= Ht Hs Hm].
  unfold DataManager.save_to_csv. now rewrite Ht, Hs, Hm.
Qed.

Lemma save_to_csv_three_keys_witness :
  data_row stray_keys = data_row (record outage_call [] [])
  /\ files (snd (DataManager.save_to_csv fair_weather DataManager.default stray_keys
                   empty_world)) !! csv_path
     = Some (DataManager.csv_record header_row
             ++ DataManager.csv_record [outage_call; []; []]).
Proof.
  split; [reflexivity|].
  rewrite (save_to_csv_three_keys fair_weather DataManager.default stray_keys
             (record outage_call [] []) empty_world eq_refl).
  reflexivity.
Defined.

(** What is written can be read back, whatever the fields contain (commas,
    quotes, line ends): the text of a sequence of rows, none without a
    field, reads back as these rows; so two sequences of rows with the same
    text are the same. *)
Theorem log_round_trip rows :
  Forall (fun fields => fields <> []) rows ->
  csv_rows (log_text rows) = rows
  /\ forall rows',
       Forall (fun fields => fields <> []) rows' ->
       log_text rows' = log_text rows -> rows' = rows.
Proof.
  intros Hrows.
  assert (Hread : forall l, Forall (fun fields : list str => fields <> []) l ->
                            csv_rows (log_text l) = l).
  { intros l Hl. rewrite <- (app_nil_r (log_text l)), read_records by exact Hl.
    apply app_nil_r. }
  split; [now apply Hread|].
  intros rows' Hrows' Heq. rewrite <- (Hread rows' Hrows'), Heq. now apply Hread.
Qed.

Lemma log_round_trip_witness :
  Forall (fun fields : list str => fields <> []) awkward_rows
  /\ csv_rows (log_text awkward_rows) = awkward_rows.
Proof.
  assert (H : Forall (fun fields : list str => fields <> []) awkward_rows)
    by (repeat constructor; discriminate).
  split; [exact H|exact (proj1 (log_round_trip _ H))].
Defined.

Lemma append_only_refl w : append_only w w.
Proof. intros p old H. exists []. now rewrite app_nil_r. Qed.

Lemma append_only_trans a b c : append_only a b -> append_only b c -> append_only a c.
Proof.
  intros Hab Hbc p old H.
  destruct (Hab p old H) as [s1 H1]. destruct (Hbc p _ H1) as [s2 H2].
  exists (s1 ++ s2). now rewrite app_assoc.
Qed.

Lemma append_only_files w w' : files w' = files w -> append_only w w'.
Proof. intros E p old H. exists []. now rewrite E, app_nil_r. Qed.

Lemma only_log_changes_refl w : only_log_changes w w.
Proof. intros p Hp. reflexivity. Qed.

Lemma only_log_changes_trans a b c :
  only_log_changes a b -> only_log_changes b c -> only_log_changes a c.
Proof. intros Hab Hbc p Hp. now rewrite (Hbc p Hp), (Hab p Hp). Qed.

(** No request, accepted or not, whatever fails while it is served, shortens
    or rewrites a file: what a file held before is still how it starts. *)
Theorem endpoint_append_only env request w :
  append_only w (snd (Routes.analyze_transcript env request w)).
Proof.
  apply (keeps_endpoint append_only append_only_refl append_only_trans).
  - intros w0 ev. now apply append_only_files.
  - apply (keeps_save_to_csv append_only append_only_refl append_only_trans).
    + intros w0 ev. now apply append_only_files.
    + intros w0 Hnone p old H. exists []. cbn [files]. rewrite app_nil_r.
      rewrite lookup_insert_ne; [exact H|]. intros <-. congruence.
    + intros w0 data p old H. cbn [files].
      destruct (decide (p = csv_path)) as [->|Hne].
      * exists data. rewrite lookup_insert_eq. now rewrite (dict_get_Some _ _ _ [] H).
      * exists []. rewrite app_nil_r. now rewrite lookup_insert_ne.
Qed.

(** No request creates, changes or removes a file other than
    [call_analysis.csv]. *)
Theorem endpoint_only_log_changes env request w :
  only_log_changes w (snd (Routes.analyze_transcript env request w)).
Proof.
  apply (keeps_endpoint only_log_changes only_log_changes_refl only_log_changes_trans).
  - intros w0 ev p Hp. reflexivity.
  - apply (keeps_save_to_csv only_log_changes only_log_changes_refl
             only_log_changes_trans).
    + intros w0 ev p Hp. reflexivity.
    + intros w0 _ p Hp. cbn [files]. now rewrite lookup_insert_ne.
    + intros w0 data p Hp. cbn [files]. now rewrite lookup_insert_ne.
Qed.

(** When the log file cannot be opened, a request changes no file at all;
    if it passes validation and the analyzer is built, it is still answered
    with a success response. *)
Theorem unwritable_log_goes_unnoticed env t w msg :
  io_fault env IoOpen = Some msg ->
  files (snd (Routes.analyze_transcript env (Routes.mkRequest t) w)) = files w
  /\ (passes_validation t -> groq_init env = None ->
      exists summary sentiment,
        fst (Routes.analyze_transcript env (Routes.mkRequest t) w)
        = Ok (Routes.mkResponse t summary sentiment true)).
Proof.
  intros Hopen. split.
  - apply (keeps_endpoint (fun a b => files b = files a)).
    + reflexivity.
    + intros a b c Hab Hbc. now rewrite Hbc.
    + reflexivity.
    + intros data w0. now rewrite (save_to_csv_open_fails env _ data w0 msg Hopen).
  - intros Hvalid Hinit.
    destruct (endpoint_accepts env t w Hvalid Hinit) as (w2 & _ & Hrun).
    rewrite Hrun. cbn [fst]. destruct (rt_clean env); eexists _, _; reflexivity.
Qed.

Lemma unwritable_log_goes_unnoticed_witness :
  io_fault read_only_disk IoOpen = Some (py "[Errno 13] Permission denied")
  /\ files (snd (Routes.analyze_transcript read_only_disk (Routes.mkRequest outage_call)
                   empty_world)) = ∅
  /\ fst (Routes.analyze_transcript read_only_disk (Routes.mkRequest outage_call)
            empty_world)
     = Ok (Routes.mkResponse outage_call (py "Customer reports an outage.")
                             (py "Frustrated") true).
Proof.
  split; [reflexivity|].
  destruct (unwritable_log_goes_unnoticed read_only_disk outage_call empty_world _ eq_refl)
    as [Hfiles _].
  split; [exact Hfiles|reflexivity].
Defined.

(** ** The answers of the endpoint *)

(** Every request gets one of three answers, decided by two facts only:
    a 400 when the trimmed transcript is shorter than 10 characters;
    otherwise a 500 when the analyzer cannot be constructed; otherwise a
    success response with the transcript of the request.  No failure inside
    the run changes which of the three it is. *)
Theorem endpoint_answers env t w :
  let out := fst (Routes.analyze_transcript env (Routes.mkRequest t) w) in
  if (Py.len (Py.strip t) <? 10)%nat
  then exists detail, out = Raise (Py.HTTPException 400 detail)
  else match groq_init env with
       | Some msg =>
           out = Raise (Py.HTTPException 500 (py "Internal server error: " ++ msg))
       | None =>
           exists summary sentiment,
             out = Ok (Routes.mkResponse t summary sentiment true)
       end.
Proof.
  intros out. subst out.
  destruct (Py.len (Py.strip t) <? 10)%nat eqn:Hlen.
  - apply Nat.ltb_lt in Hlen. rewrite (endpoint_rejects env t w Hlen).
    eexists. reflexivity.
  - apply Nat.ltb_ge in Hlen. destruct (groq_init env) as [msg|] eqn:Hinit.
    + now rewrite (endpoint_init_fails env t w msg Hlen Hinit).
    + destruct (endpoint_accepts env t w Hlen Hinit) as (w2 & _ & Hrun).
      rewrite Hrun. cbn [fst]. destruct (rt_clean env); eexists _, _; reflexivity.
Qed.

(** ** The orchestrator *)

Lemma dom_record t s m :
  dom (record t s m) = ({[ "transcript"; "summary"; "sentiment" ]} : gset string)%string.
Proof. unfold record. rewrite !dom_insert_L, dom_empty_L. set_solver. Qed.

(** [analyze_transcript] never raises, and the dictionary it returns has the
    keys "transcript", "summary" and "sentiment" and no other; in particular
    it never has a "status" key. *)
Theorem analyze_transcript_keys env self t w :
  exists d,
    fst (Orchestrator.analyze_transcript env self t w) = Ok d
    /\ dom d = ({[ "transcript"; "summary"; "sentiment" ]} : gset string)%string
    /\ d !! "status"%string = None.
Proof.
  destruct (analyze_transcript_outcome env self t w) as (w' & steps & Hrun & _).
  rewrite Hrun. cbn [fst]. eexists. split; [reflexivity|].
  destruct (rt_clean env); split; try apply dom_record; reflexivity.
Qed.

(** The Summarize step on any state at all: it never raises, its update has
    the one key "summary", and it touches no file.  When the state has no
    transcript, the [KeyError] is caught like a failed inference call and
    the update carries the fallback string. *)
Theorem summary_node_total self state w :
  fst (Orchestrator.summary_node self state w)
  = Ok {[ "summary"%string :=
            match state !! "transcript"%string with
            | Some t => summary_of self t
            | None => py "Error generating summary"
            end ]}
  /\ files (snd (Orchestrator.summary_node self state w)) = files w.
Proof.
  destruct (state !! "transcript"%string) as [t|] eqn:Ht.
  - now rewrite (summary_node_spec self state t w Ht).
  - unfold Orchestrator.summary_node. py_unfold. rewrite Ht. split; reflexivity.
Qed.

(** The Sentiment step on any state: as for the Summarize step, with the key
    "sentiment" and the fallback label "Neutral". *)
Theorem sentiment_node_total self state w :
  fst (Orchestrator.sentiment_node self state w)
  = Ok {[ "sentiment"%string :=
            match state !! "transcript"%string with
            | Some t => sentiment_of self t
            | None => py "Neutral"
            end ]}
  /\ files (snd (Orchestrator.sentiment_node self state w)) = files w.
Proof.
  destruct (state !! "transcript"%string) as [t|] eqn:Ht.
  - now rewrite (sentiment_node_spec self state t w Ht).
  - unfold Orchestrator.sentiment_node. py_unfold. rewrite Ht. split; reflexivity.
Qed.

(** The Persist step on any state: it never raises and its update is empty,
    whether the save succeeds or fails; and when one of the three keys is
    missing from the state, [save_to_csv] is not reached and no file
    changes. *)
Theorem save_node_total env self state w :
  fst (Orchestrator.save_node env self state w) = Ok ∅
  /\ ((state !! "transcript"%string = None
       \/ state !! "summary"%string = None
       \/ state !! "sentiment"%string = None) ->
      files (snd (Orchestrator.save_node env self state w)) = files w).
Proof.
  destruct (state !! "transcript"%string) as [t|] eqn:Ht;
    [destruct (state !! "summary"%string) as [s|] eqn:Hs;
     [destruct (state !! "sentiment"%string) as [m|] eqn:Hm|]|].
  - destruct (save_node_spec env self state t s m w Ht Hs Hm) as (w' & Hrun & _).
    rewrite Hrun. split; [reflexivity|]. intros [H|[H|H]]; discriminate H.
  - unfold Orchestrator.save_node. py_unfold. rewrite Ht, Hs, Hm. split; reflexivity.
  - unfold Orchestrator.save_node. py_unfold. rewrite Ht, Hs. split; reflexivity.
  - unfold Orchestrator.save_node. py_unfold. rewrite Ht. split; reflexivity.
Qed.

(** ** Requests served without failure *)

Lemma io_clean_plan env b : io_clean env = true -> io_fails env b = false.
Proof.
  unfold io_clean, io_fails, io_plan. intros H. apply negb_true_iff in H.
  cbn [existsb] in H.
  apply orb_false_elim in H as [H1 H]. apply orb_false_elim in H as [H2 H].
  apply orb_false_elim in H as [H3 H]. apply orb_false_elim in H as [H4 _].
  destruct b; cbn [existsb]; now rewrite ?H1, ?H2, ?H3, ?H4.
Qed.

(** One accepted request with no failure anywhere: the response carries the
    transcript as it came and what the two inference steps produced, and the
    log file is the old log, or a fresh header, followed by the row of the
    same three values. *)
Lemma serve_fair env t w :
  fair (env, t) ->
  exists w',
    Routes.analyze_transcript env (Routes.mkRequest t) w = (Ok (response_of (env, t)), w')
    /\ files w' = <[csv_path := appended (files w !! csv_path) (row_of (env, t))]> (files w).
Proof.
  intros (Hvalid & Hinit & Hclean & Hio). cbn [fst snd] in *.
  destruct (endpoint_accepts env t w Hvalid Hinit) as (w2 & Hana & Hrun).
  destruct (analyze_transcript_outcome env (analyzer_of env) t
              (mkWorld (files w) (trace w ++ accepted_events)))
    as (w2' & steps & Hana' & _ & _ & _ & _ & _ & Hfiles).
  rewrite Hana in Hana'. injection Hana' as <-. cbn [files] in Hfiles.
  rewrite Hclean in Hrun. eexists. split; [exact Hrun|].
  cbn [files]. apply (Hfiles Hclean), io_clean_plan, Hio.
Qed.

(** The end-to-end scenario: when both inference calls answer and nothing
    fails, the response is the input transcript with the model's two answers,
    unchanged, and the row appended to the log reads back as the same three
    strings. *)
Theorem fair_request_end_to_end env t w summary sentiment :
  fair (env, t) ->
  groq_invoke env TranscriptSummary t = Reply summary ->
  groq_invoke env SentimentAnalysis t = Reply sentiment ->
  exists w' contents,
    Routes.analyze_transcript env (Routes.mkRequest t) w
    = (Ok (Routes.mkResponse t summary sentiment true), w')
    /\ files w' !! csv_path = Some contents
    /\ contents = log_before (files w !! csv_path)
                  ++ DataManager.csv_record [t; summary; sentiment]
    /\ csv_rows (DataManager.csv_record [t; summary; sentiment])
       = [[t; summary; sentiment]].
Proof.
  intros Hfair Hsum Hsent.
  destruct (serve_fair env t w Hfair) as (w' & Hrun & Hfiles).
  unfold response_of, row_of, summary_of, sentiment_of, analyzer_of in *.
  cbn [fst snd Orchestrator.summary_llm Orchestrator.sentiment_llm] in *.
  rewrite Hsum, Hsent in *.
  exists w'. eexists. split; [exact Hrun|]. rewrite Hfiles.
  split; [apply lookup_insert_eq|]. split; [reflexivity|].
  rewrite <- (app_nil_r (DataManager.csv_record _)).
  now rewrite read_record by discriminate.
Qed.

Lemma fair_request_end_to_end_witness :
  fair (fair_weather, outage_call)
  /\ exists w',
       Routes.analyze_transcript fair_weather (Routes.mkRequest outage_call) empty_world
       = (Ok (Routes.mkResponse outage_call (py "Customer reports an outage.")
                                (py "Frustrated") true), w')
       /\ files w' !! csv_path
          = Some (DataManager.csv_record header_row
                  ++ DataManager.csv_record
                       [outage_call; py "Customer reports an outage."; py "Frustrated"]).
Proof.
  assert (Hfair : fair (fair_weather, outage_call)).
  { repeat split. apply Nat.leb_le. reflexivity. }
  split; [exact Hfair|].
  destruct (fair_request_end_to_end fair_weather outage_call empty_world
              (py "Customer reports an outage.") (py "Frustrated")
              Hfair eq_refl eq_refl)
    as (w' & contents & Hrun & Hfile & -> & _).
  exists w'. split; [exact Hrun|exact Hfile].
Defined.

Lemma serve_all_existing requests : forall w old,
  Forall fair requests ->
  files w !! csv_path = Some old ->
  fst (serve_all requests w) = map (fun request => Ok (response_of request)) requests
  /\ files (snd (serve_all requests w)) !! csv_path
     = Some (old ++ log_text (map row_of requests)).
Proof.
  induction requests as [|[env t] requests IH]; intros w old Hfair Hold.
  - cbn. now rewrite app_nil_r.
  - apply Forall_cons in Hfair as [Hfirst Hfair].
    destruct (serve_fair env t w Hfirst) as (w1 & Hrun & Hfiles).
    cbn [serve_all]. rewrite Hrun.
    assert (Hw1 : files w1 !! csv_path
                  = Some (old ++ DataManager.csv_record (row_of (env, t)))).
    { rewrite Hfiles, lookup_insert_eq, Hold. reflexivity. }
    destruct (IH w1 _ Hfair Hw1) as [Hrs Hlog].
    destruct (serve_all requests w1) as [rs w2]. cbn [fst snd] in *.
    split; [now rewrite Hrs|].
    rewrite Hlog, <- app_assoc. reflexivity.
Qed.

(** Accepted requests served one after the other with no failure, starting
    without a log file: every response is the transcript of its request with
    what the inference steps produced, and the log read back is the header
    row followed by one row per request, in the order of the requests. *)
Theorem serve_all_log request requests w :
  Forall fair (request :: requests) ->
  files w !! csv_path = None ->
  fst (serve_all (request :: requests) w)
  = map (fun r => Ok (response_of r)) (request :: requests)
  /\ exists contents,
       files (snd (serve_all (request :: requests) w)) !! csv_path = Some contents
       /\ csv_rows contents = header_row :: map row_of (request :: requests).
Proof.
  intros Hfair Hnone. destruct request as [env t].
  apply Forall_cons in Hfair as [Hfirst Hfair].
  destruct (serve_fair env t w Hfirst) as (w1 & Hrun & Hfiles).
  cbn [serve_all]. rewrite Hrun.
  assert (Hw1 : files w1 !! csv_path
                = Some (log_text [header_row; row_of (env, t)])).
  { rewrite Hfiles, lookup_insert_eq, Hnone. unfold appended, log_before, log_text.
    cbn [map concat]. now rewrite app_nil_r. }
  destruct (serve_all_existing requests w1 _ Hfair Hw1) as [Hrs Hlog].
  destruct (serve_all requests w1) as [rs w2]. cbn [fst snd] in *.
  split; [now rewrite Hrs|].
  eexists. split; [exact Hlog|].
  assert (Hall : log_text [header_row; row_of (env, t)] ++ log_text (map row_of requests)
                 = log_text (header_row :: map row_of ((env, t) :: requests))).
  { unfold log_text. cbn [map concat]. rewrite <- !app_assoc. reflexivity. }
  rewrite Hall, <- (app_nil_r (log_text _)), read_records; [apply app_nil_r|].
  constructor; [discriminate|].
  apply Forall_forall. intros fields [r [-> _]]%list_elem_of_fmap. discriminate.
Qed.

Lemma serve_all_log_witness :
  Forall fair [(fair_weather, outage_call); (groq_down, py "Please call me back today.")]
  /\ exists contents,
       files (snd (serve_all [(fair_weather, outage_call);
                              (groq_down, py "Please call me back today.")]
                     empty_world)) !! csv_path = Some contents
       /\ csv_rows contents
          = [ header_row;
              [outage_call; py "Customer reports an outage."; py "Frustrated"];
              [py "Please call me back today."; py "Error generating summary";
               py "Neutral"] ].
Proof.
  assert (Hfair : Forall fair [(fair_weather, outage_call);
                               (groq_down, py "Please call me back today.")]).
  { repeat constructor; apply Nat.leb_le; reflexivity. }
  split; [exact Hfair|].
  exact (proj2 (serve_all_log _ _ empty_world Hfair eq_refl)).
Defined.

(** ** The application and the page *)

Lemma truthy_singleton k (v : Api.jvalue) :
  Streamlit.truthy_dict (Some {[ k := v ]}) = true.
Proof.
  unfold Streamlit.truthy_dict. rewrite bool_decide_eq_false_2; [reflexivity|].
  apply map_non_empty_singleton.
Qed.

Lemma truthy_transcript_json r :
  Streamlit.truthy_dict (Some (Api.transcript_json r)) = true.
Proof.
  unfold Streamlit.truthy_dict, Api.transcript_json.
  rewrite bool_decide_eq_false_2; [reflexivity|]. apply insert_non_empty.
Qed.

(** The request of the page reaches the analysis endpoint. *)
Lemma app_analyze env t w :
  Api.app env "POST" "/api/analyze-transcript"
          (Some {[ "transcript"%string := Api.JStr t ]}) w
  = Api.respond Api.transcript_json
                (Routes.analyze_transcript env (Routes.mkRequest t)) w.
Proof. unfold Api.app. cbn. now rewrite lookup_singleton_eq. Qed.

(** An object is serialisable when each of its values is encodable. *)
Lemma serialisable_spec data :
  Api.serialisable data = true
  <-> map_Forall (fun _ v => Api.encodable_value v = true) data.
Proof.
  unfold Api.serialisable. rewrite map_Forall_to_list, forallb_forall, Forall_forall.
  split.
  - intros H [k v] Hin. apply (H (k, v)). now apply list_elem_of_In.
  - intros H [k v] Hin. apply (H (k, v)). now apply list_elem_of_In.
Qed.

Lemma serialisable_transcript_json r :
  Api.serialisable (Api.transcript_json r)
  = Api.encodable (Routes.transcript r) && Api.encodable (Routes.summary r)
    && Api.encodable (Routes.sentiment r).
Proof.
  apply eq_true_iff_eq. rewrite serialisable_spec, !andb_true_iff.
  unfold Api.transcript_json.
  rewrite !map_Forall_insert by (simplify_map_eq; reflexivity).
  cbn [Api.encodable_value]. split.
  - intros (H1 & H2 & H3 & _). now repeat split.
  - intros [[H1 H2] H3]. repeat split; try assumption. apply map_Forall_empty.
Qed.

(** The page's request, once the connection works, is answered by the
    application around the endpoint. *)
Lemma make_api_call_analyze env net t w :
  Streamlit.connection_fault net = None ->
  Streamlit.make_api_call env net "/analyze-transcript"
    (Some {[ "transcript"%string := Api.JStr t ]}) w
  = let (answer, w') :=
      Api.respond Api.transcript_json
                  (Routes.analyze_transcript env (Routes.mkRequest t)) w in
    if ((400 <=? Api.status_code answer) && (Api.status_code answer <? 600))%Z
    then (None,
          [Streamlit.st_error
             (py "API Error: "
              ++ Streamlit.http_error net (Api.status_code answer) analyze_url)], w')
    else (Some (Api.body answer), [], w').
Proof.
  intros Hnet. unfold Streamlit.make_api_call. rewrite Hnet.
  change (Streamlit.path_of (Streamlit.API_BASE_URL ++ "/analyze-transcript"))
    with (Some "/api/analyze-transcript"%string).
  now rewrite truthy_singleton, app_analyze.
Qed.

(** A server error of the endpoint reaches the page as a 500, whatever its
    detail. *)
Lemma make_api_call_server_error env net t w detail w' :
  Streamlit.connection_fault net = None ->
  Routes.analyze_transcript env (Routes.mkRequest t) w
  = (Raise (Py.HTTPException 500 detail), w') ->
  Streamlit.make_api_call env net "/analyze-transcript"
    (Some {[ "transcript"%string := Api.JStr t ]}) w
  = (None,
     [Streamlit.st_error (py "API Error: " ++ Streamlit.http_error net 500 analyze_url)],
     w').
Proof.
  intros Hnet Hrun. rewrite (make_api_call_analyze env net t w Hnet).
  unfold Api.respond. rewrite Hrun. cbn [Api.body].
  now destruct (Api.serialisable _).
Qed.

(** A response of the endpoint reaches the page when it can be encoded, and
    as a 500 when it cannot. *)
Lemma make_api_call_response env net t w r w' :
  Streamlit.connection_fault net = None ->
  Routes.analyze_transcript env (Routes.mkRequest t) w = (Ok r, w') ->
  Streamlit.make_api_call env net "/analyze-transcript"
    (Some {[ "transcript"%string := Api.JStr t ]}) w
  = if Api.serialisable (Api.transcript_json r)
    then (Some (Api.transcript_json r), [], w')
    else (None,
          [Streamlit.st_error
             (py "API Error: " ++ Streamlit.http_error net 500 analyze_url)],
          w').
Proof.
  intros Hnet Hrun. rewrite (make_api_call_analyze env net t w Hnet).
  unfold Api.respond. rewrite Hrun. cbn [Api.body].
  now destruct (Api.serialisable _).
Qed.

(** The page after a request that the backend has served: the response is
    stored when it could be sent, and the page shows a failure when it could
    not. *)
Lemma page_served env net s w :
  passes_validation (Streamlit.transcript_input s) ->
  Streamlit.connection_fault net = None ->
  groq_init env = None ->
  let r := if rt_clean env
           then response_of (env, Streamlit.transcript_input s)
           else Routes.mkResponse (Streamlit.transcript_input s)
                  (py "Error processing transcript") (py "Neutral") true in
  Streamlit.process_analysis env net s w
  = (if Api.serialisable (Api.transcript_json r)
     then (Streamlit.mkSession [] (Some (Api.transcript_json r)) true, [])
     else (s, failure_page (Streamlit.http_error net 500 analyze_url)),
     snd (Routes.analyze_transcript env
            (Routes.mkRequest (Streamlit.transcript_input s)) w)).
Proof.
  intros Hvalid Hnet Hinit r. destruct (passes_validation_checks _ Hvalid) as [Hc1 Hc2].
  unfold Streamlit.process_analysis. rewrite Hc1, Hc2.
  destruct (endpoint_accepts env _ w Hvalid Hinit) as (w2 & _ & Hrun).
  match type of Hrun with
  | _ = (_, ?w3) =>
      assert (Hrun' : Routes.analyze_transcript env
                        (Routes.mkRequest (Streamlit.transcript_input s)) w = (Ok r, w3))
        by exact Hrun
  end.
  rewrite (make_api_call_response env net _ w r _ Hnet Hrun'), Hrun'. cbn [snd].
  destruct (Api.serialisable (Api.transcript_json r)) eqn:Hser.
  - rewrite truthy_transcript_json. subst r. now destruct (rt_clean env).
  - reflexivity.
Qed.


(** The page of a request that the analyzer could not be constructed for. *)
Lemma page_init_fails env net s w msg :
  passes_validation (Streamlit.transcript_input s) ->
  Streamlit.connection_fault net = None ->
  groq_init env = Some msg ->
  Streamlit.process_analysis env net s w
  = (s, failure_page (Streamlit.http_error net 500 analyze_url),
     snd (Routes.analyze_transcript env
            (Routes.mkRequest (Streamlit.transcript_input s)) w)).
Proof.
  intros Hvalid Hnet Hinit. destruct (passes_validation_checks _ Hvalid) as [Hc1 Hc2].
  unfold Streamlit.process_analysis. rewrite Hc1, Hc2.
  pose proof (endpoint_init_fails env _ w msg Hvalid Hinit) as Hrun.
  rewrite (make_api_call_server_error env net _ w _ _ Hnet Hrun), Hrun.
  reflexivity.
Qed.

Lemma page_rejects_locally_aux env net s w :
  (Py.len (Py.strip (Streamlit.transcript_input s)) < 10)%nat ->
  fst (fst (Streamlit.process_analysis env net s w)) = s.
Proof.
  intros Hshort. unfold Streamlit.process_analysis.
  destruct (Py.strip (Streamlit.transcript_input s)) eqn:Hs; [reflexivity|].
  apply Nat.ltb_lt in Hshort. cbn [Py.truthy negb]. now rewrite Hshort.
Qed.

(** The page checks the transcript itself, with the test of the endpoint: a
    transcript that is blank or shorter than 10 characters after trimming is
    refused on the page, with its own message for each case; no request is
    sent and the session stays as it is. *)
Theorem page_rejects_locally env net s w :
  (Py.len (Py.strip (Streamlit.transcript_input s)) < 10)%nat ->
  Streamlit.process_analysis env net s w
  = (s,
     [Streamlit.st_error
        (Streamlit.cross_mark
         :: (if blank (Streamlit.transcript_input s)
             then py " Please enter a transcript to analyze"
             else py " Transcript is too short for meaningful analysis"))],
     w).
Proof.
  intros Hshort. unfold Streamlit.process_analysis.
  destruct (blank (Streamlit.transcript_input s)) eqn:Hb.
  - now rewrite (strip_blank _ Hb).
  - destruct (Py.strip (Streamlit.transcript_input s)) eqn:Hs.
    + apply strip_nil_blank in Hs. congruence.
    + apply Nat.ltb_lt in Hshort. cbn [Py.truthy negb]. now rewrite Hshort.
Qed.

Lemma page_rejects_locally_witness :
  (Py.len (Py.strip (Streamlit.transcript_input (typed too_short))) < 10)%nat
  /\ Streamlit.process_analysis fair_weather good_net (typed too_short) empty_world
     = (typed too_short,
        [Streamlit.st_error
           (Streamlit.cross_mark
            :: py " Transcript is too short for meaningful analysis")],
        empty_world).
Proof.
  assert (H : (Py.len (Py.strip (Streamlit.transcript_input (typed too_short))) < 10)%nat)
    by (apply Nat.ltb_lt; reflexivity).
  split; [exact H|].
  exact (page_rejects_locally fair_weather good_net (typed too_short) empty_world H).
Defined.



(** A transcript with a lone surrogate that the page lets through always ends
    in the failure of the page once the backend is reached: also when the
    endpoint returns its response, the response repeats the transcript and
    cannot be sent. *)
Lemma page_fails_on_lone_surrogate env net s w :
  passes_validation (Streamlit.transcript_input s) ->
  Streamlit.connection_fault net = None ->
  Api.encodable (Streamlit.transcript_input s) = false ->
  fst (Streamlit.process_analysis env net s w)
  = (s, failure_page (Streamlit.http_error net 500 analyze_url)).
Proof.
  intros Hvalid Hnet Henc. destruct (groq_init env) as [msg|] eqn:Hinit.
  - now rewrite (page_init_fails env net s w msg Hvalid Hnet Hinit).
  - rewrite (page_served env net s w Hvalid Hnet Hinit). cbn [fst].
    rewrite serialisable_transcript_json.
    replace (Api.encodable (Routes.transcript _)) with false; [reflexivity|].
    now destruct (rt_clean env).
Qed.


Lemma display_stored s r :
  Streamlit.analysis_result s = Some (Api.transcript_json r) ->
  Streamlit.show_results s = true ->
  Streamlit.display_results s = Ok (results_page r).
Proof.
  intros Hres Hshow. unfold Streamlit.display_results.
  rewrite Hres, Hshow, truthy_transcript_json. reflexivity.
Qed.

(** Once the backend has answered the request of the page with status 200,
    the answer is the response that the endpoint returned, and the page
    shows "Analysis completed successfully!" and "Results automatically
    saved to call_analysis.csv" around the values of this response, whatever
    failed inside the run or in the save. *)
Theorem page_reports_success_and_saved env net s w :
  Streamlit.connection_fault net = None ->
  Api.status_code
    (fst (Api.app env "POST" "/api/analyze-transcript"
            (Some {[ "transcript"%string := Api.JStr (Streamlit.transcript_input s) ]}) w))
  = 200%Z ->
  exists r,
    fst (Routes.analyze_transcript env
           (Routes.mkRequest (Streamlit.transcript_input s)) w) = Ok r
    /\ fst (Api.app env "POST" "/api/analyze-transcript"
              (Some {[ "transcript"%string := Api.JStr (Streamlit.transcript_input s) ]}) w)
       = Api.mkReply 200 (Api.transcript_json r)
    /\ Streamlit.display_results (fst (fst (Streamlit.process_analysis env net s w)))
       = Ok (results_page r).
Proof.
  intros Hnet. rewrite app_analyze. unfold Api.respond.
  destruct (Nat.lt_ge_cases (Py.len (Py.strip (Streamlit.transcript_input s))) 10)
    as [Hshort|Hvalid].
  - rewrite (endpoint_rejects env _ w Hshort). cbn [Api.body].
    destruct (Api.serialisable _); discriminate.
  - destruct (groq_init env) as [msg|] eqn:Hinit.
    + rewrite (endpoint_init_fails env _ w msg Hvalid Hinit). cbn [Api.body].
      destruct (Api.serialisable _); discriminate.
    + rewrite (page_served env net s w Hvalid Hnet Hinit).
      destruct (endpoint_accepts env _ w Hvalid Hinit) as (w2 & _ & Hrun).
      rewrite Hrun. cbn [Api.body fst].
      destruct (Api.serialisable _); [intros _|discriminate].
      eexists. split; [reflexivity|]. split; [reflexivity|].
      now apply display_stored.
Qed.

Lemma page_reports_success_and_saved_witness :
  Streamlit.connection_fault good_net = None
  /\ Api.status_code
       (fst (Api.app compile_fails "POST" "/api/analyze-transcript"
               (Some {[ "transcript"%string
                        := Api.JStr (Streamlit.transcript_input (typed outage_call)) ]})
               empty_world))
     = 200%Z
  /\ Streamlit.display_results
       (fst (fst (Streamlit.process_analysis compile_fails good_net (typed outage_call)
                    empty_world)))
     = Ok (results_page (Routes.mkResponse outage_call (py "Error processing transcript")
                                           (py "Neutral") true)).
Proof.
  assert (H : Api.status_code
                (fst (Api.app compile_fails "POST" "/api/analyze-transcript"
                        (Some {[ "transcript"%string
                                 := Api.JStr (Streamlit.transcript_input
                                                (typed outage_call)) ]})
                        empty_world))
              = 200%Z) by (vm_compute; reflexivity).
  split; [reflexivity|]. split; [exact H|].
  destruct (page_reports_success_and_saved compile_fails good_net (typed outage_call)
              empty_world eq_refl H) as (r & Hr & _ & Hpage).
  rewrite Hpage. f_equal. f_equal.
  assert (Hr' : fst (Routes.analyze_transcript compile_fails
                       (Routes.mkRequest (Streamlit.transcript_input (typed outage_call)))
                       empty_world)
                = Ok (Routes.mkResponse outage_call (py "Error processing transcript")
                                        (py "Neutral") true)) by reflexivity.
  rewrite Hr in Hr'. now injection Hr'.
Defined.

(** The status check of the sidebar says nothing about the analyzer: with a
    working connection it shows the API as running in every environment,
    leaving one log line and no file behind, also when no analysis can
    succeed because the analyzer cannot be constructed. *)
Theorem status_check_ignores_analyzer env net w t msg :
  Streamlit.connection_fault net = None ->
  groq_init env = Some msg ->
  passes_validation t ->
  Streamlit.check_api_status env net w
  = ([Streamlit.st_success
        (Streamlit.check_mark :: py " Call Transcript Analyzer API is running")],
     mkWorld (files w) (trace w ++ [Log INFO (py "Health check requested")]))
  /\ fst (Streamlit.process_analysis env net (typed t) w)
     = (typed t, failure_page (Streamlit.http_error net 500 analyze_url)).
Proof.
  intros Hnet Hinit Hvalid. split.
  - unfold Streamlit.check_api_status, Streamlit.make_api_call. rewrite Hnet.
    reflexivity.
  - now rewrite (page_init_fails env net (typed t) w msg Hvalid Hnet Hinit).
Qed.

Lemma status_check_ignores_analyzer_witness :
  Streamlit.connection_fault good_net = None
  /\ groq_init no_api_key = Some (py "The api_key client option must be set")
  /\ passes_validation outage_call
  /\ fst (Streamlit.check_api_status no_api_key good_net empty_world)
     = [Streamlit.st_success
          (Streamlit.check_mark :: py " Call Transcript Analyzer API is running")]
  /\ fst (fst (Streamlit.process_analysis no_api_key good_net (typed outage_call)
                 empty_world))
     = typed outage_call.
Proof.
  assert (H : passes_validation outage_call) by (apply Nat.leb_le; reflexivity).
  split; [reflexivity|]. split; [reflexivity|]. split; [exact H|].
  destruct (status_check_ignores_analyzer no_api_key good_net empty_world outage_call _
              eq_refl eq_refl H) as [Hstatus Hpage].
  rewrite Hstatus, Hpage. split; reflexivity.
Defined.

Lemma session_ok_displays s :
  session_ok s -> exists page, Streamlit.display_results s = Ok page.
Proof.
  unfold session_ok, Streamlit.display_results.
  destruct (Streamlit.analysis_result s) as [result|]; [|intros _].
  - intros [r ->]. destruct (Streamlit.show_results s); [|now eexists].
    rewrite truthy_transcript_json. eexists. reflexivity.
  - destruct (Streamlit.show_results s); now eexists.
Qed.

(** The page never stops on a missing key: starting from a fresh or cleared
    session, whatever is typed in between, every session that the analysis
    leaves holds no result or a response of the endpoint, and the results
    block shows it without a [KeyError]. *)
Theorem session_stays_displayable env net s w t :
  session_ok s ->
  let s1 := Streamlit.mkSession t (Streamlit.analysis_result s)
                                (Streamlit.show_results s) in
  let s2 := fst (fst (Streamlit.process_analysis env net s1 w)) in
  session_ok s2
  /\ (exists page, Streamlit.display_results s2 = Ok page)
  /\ session_ok (Streamlit.clear_input s2)
  /\ session_ok Streamlit.initial_session.
Proof.
  intros Hok s1 s2.
  assert (Hok1 : session_ok s1) by exact Hok.
  assert (Hok2 : session_ok s2).
  { subst s2.
    destruct (Nat.lt_ge_cases (Py.len (Py.strip (Streamlit.transcript_input s1))) 10)
      as [Hshort|Hvalid].
    - now rewrite (page_rejects_locally_aux env net s1 w Hshort).
    - destruct (Streamlit.connection_fault net) as [reason|] eqn:Hnet.
      + destruct (passes_validation_checks _ Hvalid) as [Hc1 Hc2].
        unfold Streamlit.process_analysis, Streamlit.make_api_call.
        now rewrite Hc1, Hc2, Hnet.
      + destruct (groq_init env) as [msg|] eqn:Hinit.
        * now rewrite (page_init_fails env net s1 w msg Hvalid Hnet Hinit).
        * rewrite (page_served env net s1 w Hvalid Hnet Hinit). cbn [fst].
          destruct (Api.serialisable _); [|exact Hok1].
          unfold session_ok. cbn [fst Streamlit.analysis_result]. now eexists. }
  split; [exact Hok2|]. split; [now apply session_ok_displays|].
  split; exact I.
Qed.

Lemma session_stays_displayable_witness :
  session_ok Streamlit.initial_session
  /\ exists page,
       Streamlit.display_results
         (fst (fst (Streamlit.process_analysis groq_down good_net (typed outage_call)
                      empty_world)))
       = Ok page.
Proof.
  split; [exact I|].
  exact (proj1 (proj2 (session_stays_displayable groq_down good_net
                         Streamlit.initial_session empty_world outage_call I))).
Defined.




